(** * Verification of [generate_migration_txs.py]

    A shallow embedding of the migration-transaction generator: the script
    walks a list of NFT token IDs, asks the external [cast] tool for the
    call data of [migrateNft] for each of them, gathers the answers five at a
    time and writes every group as one JSON file.

    Conventions of the embedding:
    - Python [int] is [Z]; Python [str] is [string], a character standing
      for the code point of the same number (0..255);
    - the external process is an oracle [subprocess_run] giving, for the
      command started at loop index [i], the completed process (exit status
      and captured standard output);
    - the file system effect is the ordered log of the files written
      ([files]); the terminal effect is the ordered log of the lines printed
      ([out]), one constructor of [Msg] per [print] call of the script;
    - a Python exception that the script does not catch ends the run:
      [Raise]. *)

From Stdlib Require Import ZArith List String Ascii Bool Lia.
From Stdlib Require Import DecimalString DecimalZ.
Import ListNotations.

Open Scope string_scope.
Open Scope list_scope.
Open Scope Z_scope.

(** ** Python values and built-ins used by the script *)

Module Py.

(** Uncaught exceptions the embedded code can raise. *)
Inductive Exn : Type :=
| IndexError.

Inductive result (A : Type) : Type :=
| Ok (a : A)
| Raise (e : Exn).

Arguments Ok {A} a.
Arguments Raise {A} e.

Definition bind {A B : Type} (m : result A) (k : A -> result B) : result B :=
  match m with
  | Ok a => k a
  | Raise e => Raise e
  end.

(** [str(n)] for an [int]. *)
Definition str (n : Z) : string := NilZero.string_of_int (Z.to_int n).

(** [len(l)]. *)
Definition len {A : Type} (l : list A) : Z := Z.of_nat (List.length l).

(** [l[i]], with Python's negative indices and [IndexError]. *)
Definition getitem {A : Type} (l : list A) (i : Z) : result A :=
  let j := if i <? 0 then i + len l else i in
  if j <? 0 then Raise IndexError
  else match nth_error l (Z.to_nat j) with
       | Some a => Ok a
       | None => Raise IndexError
       end.

(** [enumerate(l)], counting from [start]. *)
Fixpoint enumerate_from {A : Type} (start : Z) (l : list A) : list (Z * A) :=
  match l with
  | [] => []
  | a :: l' => (start, a) :: enumerate_from (start + 1) l'
  end.

Definition enumerate {A : Type} (l : list A) : list (Z * A) :=
  enumerate_from 0 l.

(** [sep.join(l)]. *)
Fixpoint join (sep : string) (l : list string) : string :=
  match l with
  | [] => ""
  | [s] => s
  | s :: l' => (s ++ sep ++ join sep l')%string
  end.

(** [c.isspace()] on the code points 0..255: the ASCII blanks and
    separators, NEXT LINE and NO-BREAK SPACE. *)
Definition isspace (c : ascii) : bool :=
  let n := nat_of_ascii c in
  ((9 <=? n) && (n <=? 13) || (28 <=? n) && (n <=? 32)
   || (n =? 133) || (n =? 160))%nat.

Fixpoint lstrip (s : string) : string :=
  match s with
  | EmptyString => EmptyString
  | String c s' => if isspace c then lstrip s' else s
  end.

Fixpoint rstrip (s : string) : string :=
  match s with
  | EmptyString => EmptyString
  | String c s' =>
      match rstrip s' with
      | EmptyString => if isspace c then EmptyString else String c EmptyString
      | r => String c r
      end
  end.

(** [s.strip()]. *)
Definition strip (s : string) : string := rstrip (lstrip s).

(** Every character of [s] is white space ([s] may be empty). *)
Fixpoint all_space (s : string) : bool :=
  match s with
  | EmptyString => true
  | String c s' => isspace c && all_space s'
  end.

End Py.

Import Py.

Notation "x <- m ;; k" := (Py.bind m (fun x => k))
  (at level 61, m at next level, right associativity).

(** ** Module-level constants of the script *)

Definition token_ids : list Z :=
  [5959; 5961; 6335; 6524; 4593; 5603; 5597; 4613; 5596; 5418; 6336;
   5451; 6088; 4997; 6301; 4345; 6769; 502; 6179; 6346; 6351; 6511;
   6378; 5447; 6397; 6452; 6136; 6734; 6430; 3601; 5595; 204; 6106;
   6554; 6459; 6427; 6341; 5618; 6396; 195; 6107; 5186; 327; 3802; 6457;
   4554; 6530; 5510; 6163; 6304; 6699; 3884; 6617; 6513; 4141; 6391;
   3993; 108; 6613; 420; 3818; 5604; 6135; 3178; 3111; 4390; 4240; 6517;
   4995; 100; 16201; 93; 4496; 6093; 3618; 6515; 3383].

Definition pharaoh_loan : string := "0xf6A044c3b2a3373eF2909E2474f3229f23279B5F".
Definition xpharaoh_loan : string := "0x6Bf2Fe80D245b06f6900848ec52544FBdE6c8d2C".
Definition portfolio_factory : string := "0x52d43C377e498980135C8F2E858f120A18Ea96C2".

(** ** Data model *)

(** What [subprocess.run(..., capture_output=True, text=True)] hands back
    once the child has exited.  [stdout] is [result.stdout]: the captured
    standard output as the script reads it, that is the text Python made of
    the bytes the child wrote (decoded, line endings translated by the text
    mode). *)
Record CompletedProcess : Type := {
  returncode : Z;
  stdout : string
}.

(** One entry of the ["transactions"] array. *)
Record Transaction : Type := {
  to : string;
  value : string;
  data : string
}.

(** The dictionary returned by [create_transaction_json]. *)
Record TxJson : Type := {
  chainId : string;
  transactions : list Transaction
}.

(** One [open(filename, 'w')] followed by [json.dump]. *)
Record OutFile : Type := {
  filename : string;
  contents : TxJson
}.

(** The lines the script prints, one constructor per [print] call. *)
Inductive Msg : Type :=
| MsgGenerating (total : Z)
| MsgGrouping
| MsgProcessing (token_id : Z) (position : Z) (total : Z)
| MsgErrorGenerating (token_id : Z) (failed : CompletedProcess)
| MsgFailedSkipping (token_id : Z)
| MsgCreated (name : string) (count : Z)
| MsgGenerated (file_count : Z)
| MsgEachFile.

(** The local variables of [main], the files written so far and the lines
    printed so far. *)
Record State : Type := {
  file_count : Z;
  batch_token_ids : list Z;
  batch_calldatas : list string;
  files : list OutFile;
  out : list Msg
}.

Definition print (st : State) (m : Msg) : State :=
  {| file_count := file_count st;
     batch_token_ids := batch_token_ids st;
     batch_calldatas := batch_calldatas st;
     files := files st;
     out := out st ++ [m] |}.

(** ** The functions of the script *)

(** The argument vector given to [subprocess.run]. *)
Definition cast_command (token_id : Z) : list string :=
  ["cast"; "calldata"; "migrateNft(uint256,address,address)";
   str token_id; xpharaoh_loan; portfolio_factory].

(** [create_transaction_json]: the loop appends one entry per token ID,
    reading [calldatas[i]]. *)
Fixpoint create_transactions (items : list (Z * Z)) (calldatas : list string)
    (transactions : list Transaction) : result (list Transaction) :=
  match items with
  | [] => Ok transactions
  | (i, _) :: items' =>
      d <- getitem calldatas i ;;
      create_transactions items' calldatas
        (transactions ++ [{| to := pharaoh_loan; value := "0"; data := d |}])
  end.

Definition create_transaction_json (token_ids : list Z)
    (calldatas : list string) : result TxJson :=
  transactions <- create_transactions (enumerate token_ids) calldatas [] ;;
  Ok {| chainId := "43114"; transactions := transactions |}.

(** Name of the file of a batch. *)
Definition batch_filename (batch_token_ids : list Z) : string :=
  let token_list := join "_" (map str batch_token_ids) in
  ("migrate_tokens_" ++ token_list ++ ".json")%string.

Section Run.

(** [subprocess_run i argv]: the completed process of the command [argv]
    started at loop index [i] (the script starts one process per
    iteration). *)
Variable subprocess_run : Z -> list string -> CompletedProcess.

(** [generate_calldata]: the stripped standard output, or [None] together
    with the error line when [check=True] raised [CalledProcessError]. *)
Definition generate_calldata (i token_id : Z) : option string * list Msg :=
  let result := subprocess_run i (cast_command token_id) in
  if returncode result =? 0
  then (Some (strip (stdout result)), [])
  else (None, [MsgErrorGenerating token_id result]).

(** One iteration of the [for] loop of [main]; [n] is [len(token_ids)]. *)
Definition loop_body (n : Z) (st : State) (item : Z * Z) : result State :=
  let '(i, token_id) := item in
  let st := print st (MsgProcessing token_id (i + 1) n) in
  let '(calldata, printed) := generate_calldata i token_id in
  let st := fold_left print printed st in
  match calldata with
  | Some (String _ _ as calldata) =>
      let batch_token_ids' := batch_token_ids st ++ [token_id] in
      let batch_calldatas' := batch_calldatas st ++ [calldata] in
      if (len batch_token_ids' =? 5) || (i =? n - 1)
      then
        tx_json <- create_transaction_json batch_token_ids' batch_calldatas' ;;
        let name := batch_filename batch_token_ids' in
        Ok {| file_count := file_count st + 1;
              batch_token_ids := [];
              batch_calldatas := [];
              files := files st ++ [{| filename := name; contents := tx_json |}];
              out := out st ++ [MsgCreated name (len batch_token_ids')] |}
      else
        Ok {| file_count := file_count st;
              batch_token_ids := batch_token_ids';
              batch_calldatas := batch_calldatas';
              files := files st;
              out := out st |}
  | _ =>
      (* [not calldata]: [None] or the empty string *)
      Ok (print st (MsgFailedSkipping token_id))
  end.

Fixpoint main_loop (n : Z) (st : State) (items : list (Z * Z)) : result State :=
  match items with
  | [] => Ok st
  | item :: items' =>
      st' <- loop_body n st item ;;
      main_loop n st' items'
  end.

(** [main], with the list of token IDs as a parameter. *)
Definition main_on (token_ids : list Z) : result State :=
  let st := {| file_count := 0;
               batch_token_ids := [];
               batch_calldatas := [];
               files := [];
               out := [MsgGenerating (len token_ids); MsgGrouping] |} in
  st <- main_loop (len token_ids) st (enumerate token_ids) ;;
  Ok (print (print st (MsgGenerated (file_count st))) MsgEachFile).

Definition main : result State := main_on token_ids.

(** *** Vocabulary for the statements

    An item is a pair (loop index, token ID), as [enumerate] yields it. *)

(** The process the script ran for an item. *)
Definition completed (it : Z * Z) : CompletedProcess :=
  subprocess_run (fst it) (cast_command (snd it)).

(** What [generate_calldata] returned for an item. *)
Definition calldata_of (it : Z * Z) : option string :=
  fst (generate_calldata (fst it) (snd it)).

(** The item passed the test [if not calldata] of [main]. *)
Definition succeeds (it : Z * Z) : bool :=
  match calldata_of it with
  | Some (String _ _) => true
  | _ => false
  end.

(** The standard output of the item's process, stripped. *)
Definition stripped (it : Z * Z) : string := strip (stdout (completed it)).

(** The items of a list of token IDs that passed the test, in order. *)
Definition ok_items (token_ids : list Z) : list (Z * Z) :=
  filter succeeds (enumerate token_ids).

End Run.

(** The entry [create_transaction_json] builds around one call data. *)
Definition tx_of_data (d : string) : Transaction :=
  {| to := pharaoh_loan; value := "0"; data := d |}.

(** The file [main] writes for a batch of items. *)
Definition file_of_batch (w : Z -> list string -> CompletedProcess)
    (b : list (Z * Z)) : OutFile :=
  {| filename := batch_filename (map snd b);
     contents := {| chainId := "43114";
                    transactions := map (fun it => tx_of_data (stripped w it)) b |} |}.

(** Number of transaction entries of a file. *)
Definition entries (f : OutFile) : Z := len (transactions (contents f)).

(** [ceil(a / 5)] for a count [a]. *)
Definition ceil_div5 (a : Z) : Z := (a + 4) / 5.

(** *** Vocabulary for the runs *)

(** The open batch of [st] holds exactly the items [pend]. *)
Definition holds (w : Z -> list string -> CompletedProcess)
    (st : State) (pend : list (Z * Z)) : Prop :=
  batch_token_ids st = map snd pend /\
  batch_calldatas st = map (stripped w) pend.

(** The last item of [items] passed the test ([false] when there is none). *)
Definition last_succeeds (w : Z -> list string -> CompletedProcess)
    (items : list (Z * Z)) : bool :=
  last (map (succeeds w) items) false.

(** What a run of the loop from [st] over [items] leaves: the state [st'],
    the batches [bs] written during the run and the items [pend'] still in
    the open batch. *)
Record loop_result (w : Z -> list string -> CompletedProcess)
    (st : State) (pend items : list (Z * Z))
    (st' : State) (bs : list (list (Z * Z))) (pend' : list (Z * Z)) : Prop := {
  lr_files : files st' = files st ++ map (file_of_batch w) bs;
  lr_count : file_count st' = file_count st + len bs;
  lr_holds : holds w st' pend';
  lr_open : (List.length pend' < 5)%nat;
  lr_items : pend ++ filter (succeeds w) items = List.concat bs ++ pend';
  lr_full : Forall (fun b => List.length b = 5%nat) (removelast bs);
  lr_sizes : Forall (fun b => (1 <= List.length b <= 5)%nat) bs;
  lr_closed : last_succeeds w items = true -> pend' = [];
  lr_dropped : last_succeeds w items = false ->
               Forall (fun b => List.length b = 5%nat) bs
}.

(** What [main] leaves for the list [toks]: the batches [bs] written, in
    order, and the items [pend] left in the open batch, never written. *)
Record run_result (w : Z -> list string -> CompletedProcess)
    (toks : list Z) (st : State)
    (bs : list (list (Z * Z))) (pend : list (Z * Z)) : Prop := {
  rr_files : files st = map (file_of_batch w) bs;
  rr_count : file_count st = len bs;
  rr_pending : batch_token_ids st = map snd pend;
  rr_open : (List.length pend < 5)%nat;
  rr_items : ok_items w toks = List.concat bs ++ pend;
  rr_full : Forall (fun b => List.length b = 5%nat) (removelast bs);
  rr_sizes : Forall (fun b => (1 <= List.length b <= 5)%nat) bs;
  rr_closed : last_succeeds w (enumerate toks) = true -> pend = [];
  rr_dropped : last_succeeds w (enumerate toks) = false ->
               Forall (fun b => List.length b = 5%nat) bs
}.

(** *** Vocabulary for the file names *)

(** The string has no underscore. *)
Fixpoint no_underscore (s : string) : bool :=
  match s with
  | EmptyString => true
  | String c s' => negb (Ascii.eqb c "_") && no_underscore s'
  end.

(** What follows the first piece of a joined string: nothing, or the
    separator and the rest. *)
Definition join_rest (l : list string) : string :=
  match l with
  | [] => ""
  | _ => String "_" (join "_" l)
  end.

(** The file [f] is named after a batch that holds the token [t]. *)
Definition names_token (f : OutFile) (t : Z) : Prop :=
  exists ids, filename f = batch_filename ids /\ In t ids.

(** *** Vocabulary for the terminal and for comparing runs *)

(** The [Created ...] lines of a log: file name and count printed. *)
Definition created_of (lines : list Msg) : list (string * Z) :=
  flat_map (fun m => match m with
                     | MsgCreated name count => [(name, count)]
                     | _ => []
                     end) lines.

(** The [Processing ...] lines of a log: token, position and total printed. *)
Definition processing_of (lines : list Msg) : list (Z * Z * Z) :=
  flat_map (fun m => match m with
                     | MsgProcessing token_id position total =>
                         [(token_id, position, total)]
                     | _ => []
                     end) lines.

(** The tokens of the [Failed ..., skipping...] lines of a log. *)
Definition skipped_of (lines : list Msg) : list Z :=
  flat_map (fun m => match m with
                     | MsgFailedSkipping token_id => [token_id]
                     | _ => []
                     end) lines.

(** The tokens of the [Error generating ...] lines of a log. *)
Definition errors_of (lines : list Msg) : list Z :=
  flat_map (fun m => match m with
                     | MsgErrorGenerating token_id _ => [token_id]
                     | _ => []
                     end) lines.

(** What the iterations over [items] add to the files and to the terminal. *)
Record iteration_log (w : Z -> list string -> CompletedProcess) (n : Z)
    (st : State) (items : list (Z * Z)) (st' : State) : Prop := {
  il_files : exists more,
      files st' = files st ++ more /\
      file_count st' = file_count st + len more /\
      created_of (out st')
      = created_of (out st) ++ map (fun f => (filename f, entries f)) more;
  il_out : exists lines, out st' = out st ++ lines;
  il_processing :
    processing_of (out st')
    = processing_of (out st)
      ++ map (fun it => (snd it, fst it + 1, n)) items;
  il_skipped :
    skipped_of (out st')
    = skipped_of (out st)
      ++ map snd (filter (fun it => negb (succeeds w it)) items);
  il_errors :
    errors_of (out st')
    = errors_of (out st)
      ++ map snd (filter (fun it => negb (returncode (completed w it) =? 0))
                    items)
}.

(** The call data [main] keeps for an item: [None] when the item fails the
    test [if not calldata]. *)
Definition accepted (w : Z -> list string -> CompletedProcess)
    (it : Z * Z) : option string :=
  if succeeds w it then Some (stripped w it) else None.

(** Two states that differ at most by what was printed. *)
Definition same_output (st1 st2 : State) : Prop :=
  file_count st1 = file_count st2 /\
  batch_token_ids st1 = batch_token_ids st2 /\
  batch_calldatas st1 = batch_calldatas st2 /\
  files st1 = files st2.

(** No integer occurs twice in the list. *)
Fixpoint distinctb (l : list Z) : bool :=
  match l with
  | [] => true
  | x :: l' => negb (existsb (Z.eqb x) l') && distinctb l'
  end.

(** *** Vocabulary for white space at the ends of a string *)

(** The first character of [s] is white space ([false] for the empty
    string). *)
Definition starts_with_space (s : string) : bool :=
  match s with
  | EmptyString => false
  | String c _ => isspace c
  end.

(** The last character of [s] is white space ([false] for the empty
    string). *)
Fixpoint ends_with_space (s : string) : bool :=
  match s with
  | EmptyString => false
  | String c EmptyString => isspace c
  | String _ s' => ends_with_space s'
  end.

(** *** The directory after a sequence of writes *)


(** *** Sample behaviours of the external tool *)

Definition newline : string := String (ascii_of_nat 10) "".

(** The tool printed call data and exited with status 0. *)
Definition calldata_process : CompletedProcess :=
  {| returncode := 0; stdout := ("0x8f2a91c4" ++ newline)%string |}.

(** The tool exited with status 1. *)
Definition failed_process : CompletedProcess :=
  {| returncode := 1; stdout := "" |}.

(** The tool exited with status 0 and printed an empty line. *)
Definition blank_process : CompletedProcess :=
  {| returncode := 0; stdout := newline |}.

Definition all_succeed : Z -> list string -> CompletedProcess :=
  fun _ _ => calldata_process.

(** Only the process started at loop index [k] fails. *)
Definition fails_at (k : Z) : Z -> list string -> CompletedProcess :=
  fun i _ => if i =? k then failed_process else calldata_process.

(** Only the process started at loop index [k] prints nothing useful. *)
Definition blank_at (k : Z) : Z -> list string -> CompletedProcess :=
  fun i _ => if i =? k then blank_process else calldata_process.

(** ** Built-ins *)

Lemma bind_Ok {A B : Type} (a : A) (k : A -> result B) :
  Py.bind (Ok a) k = k a.
Proof. reflexivity. Qed.

Lemma len_app {A : Type} (l1 l2 : list A) : len (l1 ++ l2) = len l1 + len l2.
Proof. unfold len. rewrite List.length_app. lia. Qed.

Lemma len_nonneg {A : Type} (l : list A) : 0 <= len l.
Proof. unfold len. lia. Qed.

Lemma getitem_middle {A : Type} (pre : list A) (d : A) (post : list A) :
  getitem (pre ++ d :: post) (len pre) = Ok d.
Proof.
  unfold getitem.
  pose proof (len_nonneg pre) as Hpre.
  destruct (len pre <? 0) eqn:Hneg; [apply Z.ltb_lt in Hneg; lia|].
  rewrite Hneg.
  unfold len. rewrite Nat2Z.id, nth_error_app2 by lia.
  now rewrite Nat.sub_diag.
Qed.

Lemma rstrip_all_space (s : string) : all_space s = true -> rstrip s = "".
Proof.
  induction s as [|c s IH]; simpl; [reflexivity|].
  intros H. apply andb_true_iff in H as [Hc Hs].
  now rewrite (IH Hs), Hc.
Qed.

Lemma rstrip_empty (s : string) : rstrip s = "" -> all_space s = true.
Proof.
  induction s as [|c s IH]; simpl; [reflexivity|].
  destruct (rstrip s) eqn:Hr.
  - destruct (isspace c); [intros _; now rewrite IH | discriminate].
  - discriminate.
Qed.

Lemma lstrip_all_space (s : string) : all_space (lstrip s) = all_space s.
Proof.
  induction s as [|c s IH]; simpl; [reflexivity|].
  destruct (isspace c) eqn:Hc; simpl; [exact IH | now rewrite Hc].
Qed.

(** The stripped string is empty exactly for a string of white space. *)
Lemma strip_empty_iff (s : string) : strip s = "" <-> all_space s = true.
Proof.
  unfold strip. split; intros H.
  - rewrite <- lstrip_all_space. now apply rstrip_empty.
  - apply rstrip_all_space. now rewrite lstrip_all_space.
Qed.

(** ** [create_transaction_json] *)

Lemma create_transactions_ok (ids : list Z) :
  forall (pre ds : list string) (acc : list Transaction),
    List.length ds = List.length ids ->
    create_transactions (enumerate_from (len pre) ids) (pre ++ ds) acc
    = Ok (acc ++ map tx_of_data ds).
Proof.
  induction ids as [|t ids IH]; intros pre ds acc Hlen.
  - destruct ds; [|discriminate]. simpl. now rewrite app_nil_r.
  - destruct ds as [|d ds]; [discriminate|].
    simpl. rewrite getitem_middle. simpl.
    replace (len pre + 1) with (len (pre ++ [d])) by (rewrite len_app; reflexivity).
    replace (pre ++ d :: ds) with ((pre ++ [d]) ++ ds) by (now rewrite <- app_assoc).
    rewrite IH by (simpl in Hlen; lia).
    now rewrite <- app_assoc.
Qed.

Lemma create_transaction_json_ok (ids : list Z) (cds : list string) :
  List.length cds = List.length ids ->
  create_transaction_json ids cds
  = Ok {| chainId := "43114"; transactions := map tx_of_data cds |}.
Proof.
  intros Hlen. unfold create_transaction_json, enumerate.
  change 0 with (len (@nil string)).
  change cds with ([] ++ cds) at 1.
  now rewrite (create_transactions_ok ids [] cds [] Hlen).
Qed.

(** ** One iteration of the loop *)

(** Printing touches nothing but the terminal. *)
Lemma fold_print_frame (l : list Msg) :
  forall st : State,
    file_count (fold_left print l st) = file_count st /\
    batch_token_ids (fold_left print l st) = batch_token_ids st /\
    batch_calldatas (fold_left print l st) = batch_calldatas st /\
    files (fold_left print l st) = files st /\
    out (fold_left print l st) = out st ++ l.
Proof.
  induction l as [|m l IH]; intros st; simpl.
  - now rewrite app_nil_r.
  - destruct (IH (print st m)) as (H1 & H2 & H3 & H4 & H5).
    rewrite H1, H2, H3, H4, H5. simpl. now rewrite <- app_assoc.
Qed.

Section Loop.

Variable w : Z -> list string -> CompletedProcess.

Lemma succeeds_true (it : Z * Z) :
  succeeds w it = true <->
  returncode (completed w it) = 0 /\ stripped w it <> "".
Proof.
  unfold succeeds, calldata_of, generate_calldata, stripped, completed.
  destruct (returncode _ =? 0) eqn:Hrc; simpl.
  - apply Z.eqb_eq in Hrc.
    destruct (strip _); split; try discriminate; intuition congruence.
  - apply Z.eqb_neq in Hrc. split; [discriminate | tauto].
Qed.

Lemma generate_calldata_succeeds (i token_id : Z) :
  succeeds w (i, token_id) = true ->
  generate_calldata w i token_id = (Some (stripped w (i, token_id)), []).
Proof.
  unfold succeeds, calldata_of, stripped, completed, generate_calldata. simpl.
  destruct (returncode _ =? 0); simpl; [reflexivity | discriminate].
Qed.

(** The test [if not calldata] is taken: the iteration only prints. *)
Lemma loop_body_skip (n : Z) (st : State) (i token_id : Z) :
  succeeds w (i, token_id) = false ->
  loop_body w n st (i, token_id)
  = Ok (print (fold_left print (snd (generate_calldata w i token_id))
                 (print st (MsgProcessing token_id (i + 1) n)))
          (MsgFailedSkipping token_id)).
Proof.
  unfold succeeds, calldata_of, loop_body. simpl.
  destruct (generate_calldata w i token_id) as [[[|c s]|] printed];
    simpl; intros H; [reflexivity | discriminate | reflexivity].
Qed.

(** The token joins the batch and the batch stays open. *)
Lemma loop_body_keep (n : Z) (st : State) (i token_id : Z) :
  succeeds w (i, token_id) = true ->
  len (batch_token_ids st ++ [token_id]) <> 5 ->
  i <> n - 1 ->
  loop_body w n st (i, token_id)
  = Ok {| file_count := file_count st;
          batch_token_ids := batch_token_ids st ++ [token_id];
          batch_calldatas := batch_calldatas st ++ [stripped w (i, token_id)];
          files := files st;
          out := out st ++ [MsgProcessing token_id (i + 1) n] |}.
Proof.
  intros Hok Hlen Hend.
  pose proof (proj1 (succeeds_true _) Hok) as [_ Hne].
  unfold loop_body. rewrite (generate_calldata_succeeds _ _ Hok).
  destruct (stripped w (i, token_id)) as [|c s]; [congruence|].
  simpl fold_left. cbv beta iota.
  apply Z.eqb_neq in Hlen, Hend.
  simpl batch_token_ids. rewrite Hlen, Hend. reflexivity.
Qed.

(** The token joins the batch and the batch is written. *)
Lemma loop_body_flush (n : Z) (st : State) (i token_id : Z) :
  succeeds w (i, token_id) = true ->
  len (batch_token_ids st ++ [token_id]) = 5 \/ i = n - 1 ->
  List.length (batch_calldatas st) = List.length (batch_token_ids st) ->
  loop_body w n st (i, token_id)
  = Ok {| file_count := file_count st + 1;
          batch_token_ids := [];
          batch_calldatas := [];
          files := files st ++
            [{| filename := batch_filename (batch_token_ids st ++ [token_id]);
                contents :=
                  {| chainId := "43114";
                     transactions :=
                       map tx_of_data
                         (batch_calldatas st ++ [stripped w (i, token_id)]) |} |}];
          out := out st ++
            [MsgProcessing token_id (i + 1) n;
             MsgCreated (batch_filename (batch_token_ids st ++ [token_id]))
               (len (batch_token_ids st ++ [token_id]))] |}.
Proof.
  intros Hok Hflush Hlen.
  pose proof (proj1 (succeeds_true _) Hok) as [_ Hne].
  unfold loop_body. rewrite (generate_calldata_succeeds _ _ Hok).
  destruct (stripped w (i, token_id)) as [|c s]; [congruence|].
  simpl fold_left. cbv beta iota. simpl batch_token_ids. simpl batch_calldatas.
  replace ((len (batch_token_ids st ++ [token_id]) =? 5) || (i =? n - 1))
    with true
    by (symmetry; apply orb_true_iff;
        destruct Hflush; [left | right]; now apply Z.eqb_eq).
  rewrite create_transaction_json_ok
    by (rewrite !List.length_app; simpl; lia).
  simpl. now rewrite <- app_assoc.
Qed.

End Loop.

(** ** The whole loop *)

Section Runs.

Variable w : Z -> list string -> CompletedProcess.

Lemma holds_lengths (st : State) (pend : list (Z * Z)) :
  holds w st pend ->
  List.length (batch_calldatas st) = List.length (batch_token_ids st).
Proof. intros [H1 H2]. now rewrite H1, H2, !List.length_map. Qed.

Lemma file_of_batch_snoc (st : State) (pend : list (Z * Z)) (i t : Z) :
  holds w st pend ->
  {| filename := batch_filename (batch_token_ids st ++ [t]);
     contents :=
       {| chainId := "43114";
          transactions :=
            map tx_of_data (batch_calldatas st ++ [stripped w (i, t)]) |} |}
  = file_of_batch w (pend ++ [(i, t)]).
Proof.
  intros [H1 H2]. unfold file_of_batch.
  now rewrite H1, H2, !map_app, map_map.
Qed.

Lemma last_succeeds_cons (it : Z * Z) (items : list (Z * Z)) :
  items <> [] -> last_succeeds w (it :: items) = last_succeeds w items.
Proof. unfold last_succeeds. destruct items; [congruence | reflexivity]. Qed.

Lemma enumerate_from_nil {A : Type} (k : Z) (l : list A) :
  enumerate_from k l = [] -> l = [].
Proof. destruct l; [reflexivity | discriminate]. Qed.

Lemma main_loop_cons (n : Z) (st : State) (it : Z * Z) (items : list (Z * Z)) :
  main_loop w n st (it :: items)
  = (st' <- loop_body w n st it ;; main_loop w n st' items).
Proof. reflexivity. Qed.

Lemma main_loop_spec (n : Z) (rest : list Z) :
  forall (k : Z) (st : State) (pend : list (Z * Z)),
    k + len rest = n ->
    holds w st pend ->
    (List.length pend < 5)%nat ->
    exists st' bs pend',
      main_loop w n st (enumerate_from k rest) = Ok st' /\
      loop_result w st pend (enumerate_from k rest) st' bs pend'.
Proof.
  induction rest as [|t rest IH]; intros k st pend Hn Hst Hopen.
  - exists st, [], pend. split; [reflexivity|].
    split; simpl; try (rewrite ?app_nil_r; auto; fail).
    + unfold len; simpl; lia.
    + discriminate.
  - assert (Hn' : k + 1 + len rest = n).
    { unfold len in *. simpl List.length in Hn. lia. }
    pose proof (holds_lengths _ _ Hst) as Hlen.
    change (enumerate_from k (t :: rest))
    with ((k, t) :: enumerate_from (k + 1) rest).
  rewrite main_loop_cons.
    destruct (succeeds w (k, t)) eqn:Hok.
    + (* the token joins the batch *)
      destruct rest as [|t' rest].
      * (* last element: the batch is written whatever its size *)
        assert (Hk : k = n - 1) by (unfold len in Hn; simpl in Hn; lia).
        rewrite (loop_body_flush w n st k t Hok (or_intror Hk) Hlen).
        simpl. eexists _, [pend ++ [(k, t)]], []. split; [reflexivity|].
        split; simpl.
        -- now rewrite (file_of_batch_snoc st pend k t Hst).
        -- reflexivity.
        -- split; reflexivity.
        -- lia.
        -- now rewrite Hok, !app_nil_r.
        -- constructor.
        -- constructor; [|constructor]. rewrite List.length_app. simpl. lia.
        -- reflexivity.
        -- unfold last_succeeds. simpl. rewrite Hok. discriminate.
      * assert (Hk : k <> n - 1).
        { unfold len in Hn. simpl List.length in Hn. lia. }
        assert (Hne : enumerate_from (k + 1) (t' :: rest) <> [])
          by discriminate.
        destruct (Z.eq_dec (len (batch_token_ids st ++ [t])) 5) as [H5|H5].
        -- (* five tokens: the batch is written *)
           rewrite (loop_body_flush w n st k t Hok (or_introl H5) Hlen).
           simpl Py.bind.
           set (st1 := {| file_count := file_count st + 1 |}).
           destruct (IH (k + 1) st1 []) as (st' & bs & pend' & Hrun & R);
             [exact Hn' | split; reflexivity | simpl; lia |].
           exists st', ((pend ++ [(k, t)]) :: bs), pend'.
           split; [exact Hrun|].
           assert (Hb : List.length (pend ++ [(k, t)]) = 5%nat).
           { destruct Hst as [Hids _]. rewrite Hids in H5.
             unfold len in H5.
             rewrite !List.length_app, List.length_map in H5.
             rewrite List.length_app. simpl in *. lia. }
           destruct R. split.
           ++ rewrite lr_files0. subst st1. simpl files.
              rewrite (file_of_batch_snoc st pend k t Hst).
              now rewrite <- app_assoc.
           ++ rewrite lr_count0. subst st1. simpl file_count.
              unfold len. simpl List.length. lia.
           ++ exact lr_holds0.
           ++ exact lr_open0.
           ++ simpl filter. rewrite Hok.
              simpl in lr_items0. simpl List.concat.
              change (enumerate_from (k + 1) (t' :: rest))
                with ((k + 1, t') :: enumerate_from (k + 1 + 1) rest).
              rewrite lr_items0.
              now rewrite <- !app_assoc.
           ++ destruct bs as [|b bs]; [constructor|].
              change (removelast ((pend ++ [(k, t)]) :: b :: bs))
                with ((pend ++ [(k, t)]) :: removelast (b :: bs)).
              now constructor.
           ++ constructor; [lia | exact lr_sizes0].
           ++ rewrite last_succeeds_cons by exact Hne. exact lr_closed0.
           ++ rewrite last_succeeds_cons by exact Hne.
              intros Hl. constructor; [exact Hb | now apply lr_dropped0].
        -- (* fewer than five: the batch stays open *)
           rewrite (loop_body_keep w n st k t Hok H5 Hk).
           simpl Py.bind.
           set (st1 := {| file_count := file_count st |}).
           assert (Hopen1 : (List.length (pend ++ [(k, t)]) < 5)%nat).
           { destruct Hst as [Hids _]. rewrite Hids in H5.
             unfold len in H5.
             rewrite !List.length_app, List.length_map in H5.
             rewrite List.length_app. simpl in *. lia. }
           destruct (IH (k + 1) st1 (pend ++ [(k, t)]))
             as (st' & bs & pend' & Hrun & R);
             [exact Hn' | | exact Hopen1 |].
           { destruct Hst as [Hids Hcds]. subst st1. split; simpl.
             - now rewrite Hids, map_app.
             - now rewrite Hcds, map_app. }
           exists st', bs, pend'. split; [exact Hrun|].
           destruct R. split; auto.
           ++ simpl filter. rewrite Hok.
              change (enumerate_from (k + 1) (t' :: rest))
                with ((k + 1, t') :: enumerate_from (k + 1 + 1) rest).
              rewrite <- lr_items0. now rewrite <- app_assoc.
    + (* the token is skipped *)
      rewrite (loop_body_skip w n st k t Hok). simpl Py.bind.
      set (st1 := print _ _).
      destruct (IH (k + 1) st1 pend) as (st' & bs & pend' & Hrun & R);
        [exact Hn' | | exact Hopen |].
      { subst st1. destruct Hst as [Hids Hcds].
        destruct (fold_print_frame (snd (generate_calldata w k t))
                    (print st (MsgProcessing t (k + 1) n)))
          as (_ & H2 & H3 & _).
        split; simpl; [now rewrite H2 | now rewrite H3]. }
      exists st', bs, pend'. split; [exact Hrun|].
      assert (Hfc : file_count st1 = file_count st /\ files st1 = files st).
      { subst st1.
        destruct (fold_print_frame (snd (generate_calldata w k t))
                    (print st (MsgProcessing t (k + 1) n)))
          as (H1 & _ & _ & H4 & _).
        split; simpl; [now rewrite H1 | now rewrite H4]. }
      destruct Hfc as [Hfc Hfs].
      destruct R. split; auto.
      * now rewrite <- Hfs.
      * now rewrite <- Hfc.
      * simpl filter. rewrite Hok. exact lr_items0.
      * intros Hl. apply lr_closed0.
        unfold last_succeeds in *. simpl map in Hl. rewrite Hok in Hl.
        destruct (map (succeeds w) (enumerate_from (k + 1) rest));
          [discriminate | exact Hl].
      * intros Hl. apply lr_dropped0.
        unfold last_succeeds in *. simpl map in Hl. rewrite Hok in Hl.
        destruct (map (succeeds w) (enumerate_from (k + 1) rest));
          [reflexivity | exact Hl].
Qed.

End Runs.

(** ** A whole run *)

Section Main.

Variable w : Z -> list string -> CompletedProcess.

(** [main] never raises, and its outcome is described by [run_result]. *)
Lemma main_on_spec (toks : list Z) :
  exists st bs pend, main_on w toks = Ok st /\ run_result w toks st bs pend.
Proof.
  unfold main_on.
  set (st0 := {| file_count := 0 |}).
  destruct (main_loop_spec w (len toks) toks 0 st0 [])
    as (st' & bs & pend & Hrun & R);
    [lia | split; reflexivity | simpl; lia |].
  fold (enumerate toks) in Hrun, R.
  exists (print (print st' (MsgGenerated (file_count st'))) MsgEachFile), bs, pend.
  rewrite Hrun. split; [reflexivity|].
  destruct R as [Hf Hc [Hids Hcds] Ho Hi Hfull Hs Hcl Hd].
  split; simpl; auto.
Qed.

End Main.

(** ** Shape of the files *)

Lemma entries_file_of_batch (w : Z -> list string -> CompletedProcess)
    (b : list (Z * Z)) :
  entries (file_of_batch w b) = len b.
Proof. unfold entries, len. simpl. now rewrite List.length_map. Qed.

Lemma Forall_removelast_inner {A : Type} (P : A -> Prop)
    (l1 : list A) (x y : A) (l2 : list A) :
  Forall P (removelast (l1 ++ x :: y :: l2)) -> P x.
Proof.
  intros H.
  rewrite removelast_app in H by discriminate.
  apply Forall_app in H as [_ H].
  change (removelast (x :: y :: l2)) with (x :: removelast (y :: l2)) in H.
  now inversion H.
Qed.

Lemma create_transactions_entries (items : list (Z * Z)) (cds : list string) :
  forall acc txs,
    create_transactions items cds acc = Ok txs ->
    Forall (fun tx => to tx = pharaoh_loan /\ value tx = "0") acc ->
    Forall (fun tx => to tx = pharaoh_loan /\ value tx = "0") txs.
Proof.
  induction items as [|[i t] items IH]; intros acc txs Hrun Hacc; simpl in Hrun.
  - now inversion Hrun; subst.
  - destruct (getitem cds i) as [d|e]; simpl in Hrun; [|discriminate].
    apply (IH _ _ Hrun).
    apply Forall_app. split; [exact Hacc|].
    constructor; [split; reflexivity | constructor].
Qed.

(** Whatever its arguments, a dictionary built by [create_transaction_json]
    has the chain identifier and the fixed fields of the script. *)
Lemma create_transaction_json_fields (ids : list Z) (cds : list string)
    (j : TxJson) :
  create_transaction_json ids cds = Ok j ->
  chainId j = "43114" /\
  Forall (fun tx => to tx = pharaoh_loan /\ value tx = "0") (transactions j).
Proof.
  unfold create_transaction_json. intros H.
  destruct (create_transactions (enumerate ids) cds []) as [txs|e] eqn:Htx;
    simpl in H; [|discriminate].
  inversion H; subst; simpl. split; [reflexivity|].
  apply (create_transactions_entries _ _ _ _ Htx). constructor.
Qed.

(** ** Counting the files *)

Lemma length_concat_full {A : Type} (bs : list (list A)) :
  Forall (fun b => List.length b = 5%nat) bs ->
  List.length (List.concat bs) = (5 * List.length bs)%nat.
Proof.
  induction 1 as [|b bs Hb _ IH]; simpl; [reflexivity|].
  rewrite List.length_app, IH, Hb. lia.
Qed.

(** The number of files written: one per full group of five successful
    tokens, and one more for the rest when the last token of the list is
    itself successful. *)
Lemma number_of_files (w : Z -> list string -> CompletedProcess)
    (toks : list Z) :
  exists st,
    main_on w toks = Ok st /\
    file_count st = len (files st) /\
    len (files st)
    = len (ok_items w toks) / 5
      + (if last_succeeds w (enumerate toks)
            && negb (len (ok_items w toks) mod 5 =? 0)
         then 1 else 0).
Proof.
  destruct (main_on_spec w toks) as (st & bs & pend & Hrun & R).
  exists st. split; [exact Hrun|]. destruct R.
  assert (Hfiles : len (files st) = len bs).
  { rewrite rr_files0. unfold len. now rewrite List.length_map. }
  split; [congruence|]. rewrite Hfiles, rr_items0. clear Hfiles.
  destruct (last_succeeds w (enumerate toks)) eqn:Hlast.
  - rewrite (rr_closed0 eq_refl), app_nil_r. simpl andb.
    destruct bs as [|b0 bs0]; [reflexivity|].
    destruct (@exists_last _ (b0 :: bs0)) as (bs' & b & Heq); [discriminate|].
    rewrite Heq in *. clear Heq b0 bs0.
    rewrite removelast_last in rr_full0.
    apply Forall_app in rr_sizes0 as [_ Hb]. inversion Hb as [|? ? Hb' _]; subst.
    rewrite concat_app. simpl List.concat. rewrite app_nil_r.
    unfold len. rewrite !List.length_app, (length_concat_full _ rr_full0).
    simpl List.length.
    destruct (_ mod 5 =? 0) eqn:Hmod; simpl negb; cbv iota;
      [apply Z.eqb_eq in Hmod | apply Z.eqb_neq in Hmod];
      revert Hmod; generalize (List.length bs'); generalize (List.length b) Hb';
      intros r Hr p Hmod;
      Z.to_euclidean_division_equations; lia.
  - rewrite andb_false_l.
    unfold len.
    rewrite List.length_app, (length_concat_full _ (rr_dropped0 eq_refl)).
    revert rr_open0. generalize (List.length pend) (List.length bs).
    intros r p Hr. Z.to_euclidean_division_equations. lia.
Qed.

(** The count is the ceiling of (successful tokens / 5) exactly when the
    last token of the list is successful or nothing is left over. *)
Lemma number_of_files_ceiling (w : Z -> list string -> CompletedProcess)
    (toks : list Z) :
  exists st,
    main_on w toks = Ok st /\
    (len (files st) = ceil_div5 (len (ok_items w toks)) <->
     last_succeeds w (enumerate toks) = true \/
     len (ok_items w toks) mod 5 = 0).
Proof.
  destruct (number_of_files w toks) as (st & Hrun & _ & Hn).
  exists st. split; [exact Hrun|]. rewrite Hn. unfold ceil_div5.
  pose proof (len_nonneg (ok_items w toks)) as Hpos.
  revert Hpos. generalize (len (ok_items w toks)). intros a Hpos.
  destruct (last_succeeds w (enumerate toks)); simpl andb.
  - split; [auto|]. intros _.
    destruct (a mod 5 =? 0) eqn:Hmod; simpl negb; cbv iota;
      [apply Z.eqb_eq in Hmod | apply Z.eqb_neq in Hmod];
      Z.to_euclidean_division_equations; lia.
  - split.
    + intros H. right. Z.to_euclidean_division_equations. lia.
    + intros [H|H]; [discriminate|]. Z.to_euclidean_division_equations. lia.
Qed.

(** ** File names

    The name of a file determines the token IDs of its batch: the decimal
    writing of an integer is never empty, has no underscore and determines
    the integer. *)

Lemma append_empty_r (s : string) : (s ++ "")%string = s.
Proof. induction s as [|c s IH]; simpl; [reflexivity | now rewrite IH]. Qed.

Lemma append_length (a b : string) :
  String.length (a ++ b) = (String.length a + String.length b)%nat.
Proof. induction a as [|c a IH]; simpl; [reflexivity | now rewrite IH]. Qed.

Lemma append_inj_l (p a b : string) : (p ++ a = p ++ b)%string -> a = b.
Proof.
  induction p as [|c p IH]; simpl; intros H; [exact H|].
  injection H as H. now apply IH.
Qed.

Lemma append_inj_r (s : string) :
  forall a b : string, (a ++ s = b ++ s)%string -> a = b.
Proof.
  induction a as [|c a IH]; intros [|d b] H; simpl in H.
  - reflexivity.
  - apply (f_equal String.length) in H. simpl in H.
    rewrite append_length in H. lia.
  - apply (f_equal String.length) in H. simpl in H.
    rewrite append_length in H. lia.
  - injection H as -> H. f_equal. now apply IH.
Qed.

Lemma string_of_uint_no_underscore (d : Decimal.uint) :
  no_underscore (NilEmpty.string_of_uint d) = true.
Proof. induction d; simpl; auto. Qed.

Lemma str_no_underscore (n : Z) : no_underscore (str n) = true.
Proof.
  unfold str. destruct (Z.to_int n) as [d|d]; simpl;
    destruct d; simpl; auto using string_of_uint_no_underscore.
Qed.

Lemma str_not_empty (n : Z) : str n <> "".
Proof.
  unfold str. destruct (Z.to_int n) as [d|d]; simpl;
    [destruct d; discriminate | discriminate].
Qed.

Lemma int_of_string_of_int (d : Decimal.int) :
  option_map Z.of_int (NilZero.int_of_string (NilZero.string_of_int d))
  = Some (Z.of_int d).
Proof.
  destruct d as [[| | | | | | | | | |]|[| | | | | | | | | |]];
    try reflexivity;
    rewrite NilZero.isi by discriminate; reflexivity.
Qed.

Lemma str_inj (n m : Z) : str n = str m -> n = m.
Proof.
  unfold str. intros H.
  apply (f_equal (fun s => option_map Z.of_int (NilZero.int_of_string s))) in H.
  rewrite !int_of_string_of_int, !DecimalZ.of_to in H. congruence.
Qed.

Lemma join_cons (s : string) (l : list string) :
  join "_" (s :: l) = (s ++ join_rest l)%string.
Proof. destruct l; simpl; [now rewrite append_empty_r | reflexivity]. Qed.

Lemma first_piece_unique (a : string) :
  forall (b : string) (l1 l2 : list string),
    no_underscore a = true -> no_underscore b = true ->
    (a ++ join_rest l1 = b ++ join_rest l2)%string ->
    a = b /\ join_rest l1 = join_rest l2.
Proof.
  induction a as [|c a IH]; intros [|d b] l1 l2 Ha Hb H; simpl in *.
  - now split.
  - apply andb_true_iff in Hb as [Hd _].
    destruct l1; simpl in H; [discriminate|].
    injection H as <- _. discriminate.
  - apply andb_true_iff in Ha as [Hc _].
    destruct l2; simpl in H; [discriminate|].
    injection H as -> _. discriminate.
  - apply andb_true_iff in Ha as [_ Ha].
    apply andb_true_iff in Hb as [_ Hb].
    injection H as -> H.
    destruct (IH b l1 l2 Ha Hb H) as [-> Hr]. now split.
Qed.

Lemma join_str_inj (l1 : list Z) :
  forall l2 : list Z,
    join "_" (map str l1) = join "_" (map str l2) -> l1 = l2.
Proof.
  induction l1 as [|x l1 IH]; intros [|y l2] H.
  - reflexivity.
  - exfalso. simpl map in H. rewrite join_cons in H.
    pose proof (str_not_empty y). destruct (str y); [congruence | discriminate].
  - exfalso. simpl map in H. rewrite join_cons in H.
    pose proof (str_not_empty x). destruct (str x); [congruence | discriminate].
  - simpl map in H. rewrite !join_cons in H.
    apply first_piece_unique in H as [Hxy Hrest];
      auto using str_no_underscore.
    apply str_inj in Hxy. subst y. f_equal. apply IH.
    destruct l1, l2; simpl in Hrest; try discriminate;
      [reflexivity | now injection Hrest].
Qed.

Lemma batch_filename_inj (ids1 ids2 : list Z) :
  batch_filename ids1 = batch_filename ids2 -> ids1 = ids2.
Proof.
  unfold batch_filename. intros H.
  apply append_inj_l, append_inj_r in H.
  now apply join_str_inj.
Qed.

Lemma file_of_batch_names (w : Z -> list string -> CompletedProcess)
    (b : list (Z * Z)) (t : Z) :
  names_token (file_of_batch w b) t <-> In t (map snd b).
Proof.
  unfold names_token. simpl. split.
  - intros (ids & Hname & Hin). now rewrite (batch_filename_inj _ _ Hname).
  - intros Hin. now exists (map snd b).
Qed.

(** A token none of whose invocations passed the test of [main] is named by
    no file. *)
Lemma unsuccessful_token_in_no_file
    (w : Z -> list string -> CompletedProcess) (toks : list Z) (t : Z) :
  (forall i, In (i, t) (enumerate toks) -> succeeds w (i, t) = false) ->
  exists st,
    main_on w toks = Ok st /\
    forall f, In f (files st) -> ~ names_token f t.
Proof.
  intros Hbad.
  destruct (main_on_spec w toks) as (st & bs & pend & Hrun & R).
  exists st. split; [exact Hrun|].
  intros f Hf Hname. rewrite (rr_files _ _ _ _ _ R) in Hf.
  apply in_map_iff in Hf as (b & <- & Hb).
  apply file_of_batch_names in Hname.
  apply in_map_iff in Hname as ([i t'] & Ht & Hit). simpl in Ht. subst t'.
  assert (Hok : In (i, t) (ok_items w toks)).
  { rewrite (rr_items _ _ _ _ _ R). apply in_or_app. left.
    apply in_concat. now exists b. }
  unfold ok_items in Hok. apply filter_In in Hok as [Hin Hs].
  rewrite (Hbad i Hin) in Hs. discriminate.
Qed.

(** ** Files are only ever added *)

Lemma loop_body_files_grow (w : Z -> list string -> CompletedProcess)
    (n : Z) (st st' : State) (it : Z * Z) :
  loop_body w n st it = Ok st' ->
  exists more, files st' = files st ++ more.
Proof.
  destruct it as [i t]. unfold loop_body.
  destruct (generate_calldata w i t) as [calldata printed].
  destruct (fold_print_frame printed (print st (MsgProcessing t (i + 1) n)))
    as (_ & _ & _ & Hfiles & _).
  simpl files in Hfiles.
  destruct calldata as [[|c s]|].
  - intros [= <-]. exists []. simpl. now rewrite Hfiles, app_nil_r.
  - destruct (_ || _).
    + destruct (create_transaction_json _ _) as [j|e]; simpl; [|discriminate].
      intros [= <-]. simpl. rewrite Hfiles. now eexists.
    + intros [= <-]. exists []. simpl. now rewrite Hfiles, app_nil_r.
  - intros [= <-]. exists []. simpl. now rewrite Hfiles, app_nil_r.
Qed.

Lemma main_loop_files_grow (w : Z -> list string -> CompletedProcess)
    (n : Z) (items : list (Z * Z)) :
  forall st st',
    main_loop w n st items = Ok st' ->
    exists more, files st' = files st ++ more.
Proof.
  induction items as [|it items IH]; intros st st' Hrun; simpl in Hrun.
  - injection Hrun as <-. exists []. now rewrite app_nil_r.
  - destruct (loop_body w n st it) as [st1|e] eqn:Hbody; simpl in Hrun;
      [|discriminate].
    destruct (loop_body_files_grow _ _ _ _ _ Hbody) as (m1 & H1).
    destruct (IH _ _ Hrun) as (m2 & H2).
    exists (m1 ++ m2). now rewrite H2, H1, app_assoc.
Qed.

(** ** [strip] removes white space at both ends and nothing else *)

Lemma lstrip_decompose (s : string) :
  exists pre, s = (pre ++ lstrip s)%string /\ all_space pre = true.
Proof.
  induction s as [|c s (pre & Hs & Hpre)]; simpl.
  - now exists "".
  - destruct (isspace c) eqn:Hc.
    + exists (String c pre). simpl. rewrite Hc, Hpre. split; [congruence | reflexivity].
    + now exists "".
Qed.

Lemma rstrip_decompose (s : string) :
  exists post, s = (rstrip s ++ post)%string /\ all_space post = true.
Proof.
  induction s as [|c s (post & Hs & Hpost)]; simpl.
  - now exists "".
  - destruct (rstrip s) as [|d r] eqn:Hr.
    + simpl in Hs. destruct (isspace c) eqn:Hc.
      * exists (String c post). simpl. rewrite Hc, Hpost. split; [congruence | reflexivity].
      * exists post. simpl. split; [congruence | assumption].
    + exists post. simpl. split; [|assumption]. now rewrite Hs at 1.
Qed.

Lemma strip_decompose (s : string) :
  exists pre post,
    s = (pre ++ strip s ++ post)%string /\
    all_space pre = true /\ all_space post = true.
Proof.
  destruct (lstrip_decompose s) as (pre & Hs & Hpre).
  destruct (rstrip_decompose (lstrip s)) as (post & Hl & Hpost).
  exists pre, post. unfold strip. now rewrite <- Hl.
Qed.

Lemma rstrip_idempotent (s : string) : rstrip (rstrip s) = rstrip s.
Proof.
  induction s as [|c s IH]; simpl; [reflexivity|].
  destruct (rstrip s) as [|d r] eqn:Hr.
  - destruct (isspace c) eqn:Hc; simpl; [reflexivity | now rewrite Hc].
  - change (rstrip (String c (String d r)))
      with (match rstrip (String d r) with
            | "" => if isspace c then "" else String c ""
            | r' => String c r'
            end).
    now rewrite IH.
Qed.

Lemma lstrip_strip (s : string) : lstrip (strip s) = strip s.
Proof.
  unfold strip.
  induction s as [|c s IH]; simpl; [reflexivity|].
  destruct (isspace c) eqn:Hc; [exact IH|].
  simpl. destruct (rstrip s); rewrite ?Hc; simpl; now rewrite Hc.
Qed.

(** The ends of a stripped string, said with [isspace] alone. *)

Lemma lstrip_starts (s : string) : starts_with_space (lstrip s) = false.
Proof.
  induction s as [|c s IH]; simpl; [reflexivity|].
  destruct (isspace c) eqn:Hc; [exact IH | exact Hc].
Qed.

Lemma rstrip_starts (s : string) :
  starts_with_space s = false -> starts_with_space (rstrip s) = false.
Proof.
  destruct s as [|c s]; simpl; [reflexivity|]. intros Hc.
  destruct (rstrip s); [rewrite Hc|]; exact Hc.
Qed.

Lemma rstrip_ends (s : string) : ends_with_space (rstrip s) = false.
Proof.
  induction s as [|c s IH]; simpl; [reflexivity|].
  destruct (rstrip s) as [|d r].
  - destruct (isspace c) eqn:Hc; [reflexivity | exact Hc].
  - exact IH.
Qed.

Lemma strip_ends (s : string) :
  starts_with_space (strip s) = false /\ ends_with_space (strip s) = false.
Proof.
  unfold strip. split; [apply rstrip_starts, lstrip_starts | apply rstrip_ends].
Qed.




(** ** Failed and blank invocations *)

Lemma loop_body_failure (w : Z -> list string -> CompletedProcess)
    (n : Z) (st : State) (i t : Z) :
  returncode (w i (cast_command t)) <> 0 ->
  loop_body w n st (i, t)
  = Ok (print (print (print st (MsgProcessing t (i + 1) n))
                 (MsgErrorGenerating t (w i (cast_command t))))
          (MsgFailedSkipping t)).
Proof.
  intros Hrc. apply Z.eqb_neq in Hrc.
  unfold loop_body, generate_calldata. now rewrite Hrc.
Qed.

Lemma loop_body_blank (w : Z -> list string -> CompletedProcess)
    (n : Z) (st : State) (i t : Z) :
  returncode (w i (cast_command t)) = 0 ->
  all_space (stdout (w i (cast_command t))) = true ->
  loop_body w n st (i, t)
  = Ok (print (print st (MsgProcessing t (i + 1) n)) (MsgFailedSkipping t)).
Proof.
  intros Hrc Hblank. apply Z.eqb_eq in Hrc. apply strip_empty_iff in Hblank.
  unfold loop_body, generate_calldata. now rewrite Hrc, Hblank.
Qed.

Lemma succeeds_false_failure (w : Z -> list string -> CompletedProcess)
    (i t : Z) :
  returncode (w i (cast_command t)) <> 0 -> succeeds w (i, t) = false.
Proof.
  intros Hrc. destruct (succeeds w (i, t)) eqn:Hs; [|reflexivity].
  apply succeeds_true in Hs as [Hs _]. contradiction.
Qed.

Lemma succeeds_false_blank (w : Z -> list string -> CompletedProcess)
    (i t : Z) :
  all_space (stdout (w i (cast_command t))) = true -> succeeds w (i, t) = false.
Proof.
  intros Hblank. destruct (succeeds w (i, t)) eqn:Hs; [|reflexivity].
  apply succeeds_true in Hs as [_ Hs]. apply strip_empty_iff in Hblank.
  contradiction.
Qed.

(** A file is written by an iteration exactly when the token passed the
    test and either completes a batch of five or is the final element. *)
Lemma loop_body_writes_iff (w : Z -> list string -> CompletedProcess)
    (n : Z) (st : State) (i t : Z) :
  List.length (batch_calldatas st) = List.length (batch_token_ids st) ->
  exists st',
    loop_body w n st (i, t) = Ok st' /\
    (files st' <> files st <->
     succeeds w (i, t) = true /\
     (len (batch_token_ids st ++ [t]) = 5 \/ i = n - 1)).
Proof.
  intros Hlen.
  destruct (succeeds w (i, t)) eqn:Hok.
  - destruct (Z.eq_dec (len (batch_token_ids st ++ [t])) 5) as [H5|H5];
      [|destruct (Z.eq_dec i (n - 1)) as [Hend|Hend]].
    + rewrite (loop_body_flush w n st i t Hok (or_introl H5) Hlen).
      eexists. split; [reflexivity|]. simpl. split; [auto|].
      intros _ H. apply (f_equal (@List.length _)) in H.
      rewrite List.length_app in H. simpl in H. lia.
    + rewrite (loop_body_flush w n st i t Hok (or_intror Hend) Hlen).
      eexists. split; [reflexivity|]. simpl. split; [auto|].
      intros _ H. apply (f_equal (@List.length _)) in H.
      rewrite List.length_app in H. simpl in H. lia.
    + rewrite (loop_body_keep w n st i t Hok H5 Hend).
      eexists. split; [reflexivity|]. simpl. intuition congruence.
  - rewrite (loop_body_skip w n st i t Hok).
    eexists. split; [reflexivity|].
    destruct (fold_print_frame (snd (generate_calldata w i t))
                (print st (MsgProcessing t (i + 1) n))) as (_ & _ & _ & Hf & _).
    simpl. simpl in Hf. rewrite Hf. intuition congruence.
Qed.

(** ** Properties of the specification *)

(** C1: the number of files is not always the ceiling of (successful
    tokens / 5).  With the list of the script and a tool that fails for the
    last token only (loop index 76), 76 tokens are successful and
    ceil(76 / 5) is 16, yet 15 files are written: token 6515, successful, is
    still in the open batch when the run ends. *)
Theorem last_token_failure_one_file_short :
  exists st,
    main (fails_at 76) = Ok st /\
    len (ok_items (fails_at 76) token_ids) = 76 /\
    ceil_div5 76 = 16 /\
    len (files st) = 15 /\
    file_count st = 15 /\
    batch_token_ids st = [6515].
Proof.
  eexists. split; [vm_compute; reflexivity|].
  repeat split; vm_compute; reflexivity.
Qed.

(** C2: at the final element of the list the file is not written
    unconditionally.  For the list [1; 2] with a tool failing for token 2,
    the first iteration leaves token 1 in the open batch, and the iteration
    of the final element (index 1 = len - 1) ends at [continue]: no file is
    written and the batch stays open. *)
Theorem final_element_failure_writes_no_file :
  let st0 := {| file_count := 0; batch_token_ids := []; batch_calldatas := [];
                files := []; out := [] |} in
  exists st1 st2,
    loop_body (fails_at 1) (len [1; 2]) st0 (0, 1) = Ok st1 /\
    batch_token_ids st1 = [1] /\
    1 = len [1; 2] - 1 /\
    loop_body (fails_at 1) (len [1; 2]) st1 (1, 2) = Ok st2 /\
    files st2 = [] /\
    file_count st2 = 0 /\
    batch_token_ids st2 = [1] /\
    main_loop (fails_at 1) (len [1; 2]) st0 (enumerate [1; 2]) = Ok st2.
Proof.
  simpl. eexists. eexists.
  split; [vm_compute; reflexivity|].
  repeat split; vm_compute; reflexivity.
Qed.

(** C3: the successful tokens are not always partitioned into the files.
    For the list [1; ...; 8] with a tool failing for token 8, the successful
    tokens are 1 to 7; one file is written, for tokens 1 to 5, and the
    successful tokens 6 and 7 are in no file. *)
Theorem successful_tokens_left_out :
  exists st,
    main_on (fails_at 7) [1; 2; 3; 4; 5; 6; 7; 8] = Ok st /\
    map snd (ok_items (fails_at 7) [1; 2; 3; 4; 5; 6; 7; 8])
    = [1; 2; 3; 4; 5; 6; 7] /\
    map filename (files st) = ["migrate_tokens_1_2_3_4_5.json"] /\
    map entries (files st) = [5] /\
    batch_token_ids st = [6; 7].
Proof.
  eexists. split; [vm_compute; reflexivity|].
  repeat split; vm_compute; reflexivity.
Qed.

(** C4: whatever the list of token IDs and whatever the external tool
    answers, [main] ends normally, every file it has written holds between 1
    and 5 transaction entries, and a file holding fewer than 5 entries has no
    file written after it. *)
Theorem files_hold_one_to_five_short_one_last
    (w : Z -> list string -> CompletedProcess) (toks : list Z) :
  exists st,
    main_on w toks = Ok st /\
    (forall f, In f (files st) -> 1 <= entries f <= 5) /\
    (forall before f after,
        files st = before ++ f :: after -> entries f < 5 -> after = []).
Proof.
  destruct (main_on_spec w toks) as (st & bs & pend & Hrun & R).
  exists st. split; [exact Hrun|]. destruct R. split.
  - intros f Hin. rewrite rr_files0 in Hin.
    apply in_map_iff in Hin as (b & <- & Hb).
    rewrite entries_file_of_batch.
    pose proof (proj1 (Forall_forall _ _) rr_sizes0 b Hb) as Hsz.
    cbv beta in Hsz. unfold len. lia.
  - intros before f after Hsplit Hshort.
    destruct after as [|g after]; [reflexivity|]. exfalso.
    rewrite rr_files0 in Hsplit.
    apply map_eq_app in Hsplit as (bs1 & bs2 & -> & _ & Hsplit).
    apply map_eq_cons in Hsplit as (b & bs3 & -> & <- & Hsplit).
    apply map_eq_cons in Hsplit as (c & bs4 & -> & _ & _).
    apply Forall_removelast_inner in rr_full0.
    rewrite entries_file_of_batch in Hshort. unfold len in Hshort. lia.
Qed.

(** C5: in every transaction entry of every file written by a run, the
    field ["value"] is the string ["0"] and the field ["to"] is the loan
    contract address [0xf6A044c3b2a3373eF2909E2474f3229f23279B5F]. *)
Theorem entries_value_zero_to_loan
    (w : Z -> list string -> CompletedProcess) (toks : list Z) :
  pharaoh_loan = "0xf6A044c3b2a3373eF2909E2474f3229f23279B5F" /\
  exists st,
    main_on w toks = Ok st /\
    forall f tx,
      In f (files st) -> In tx (transactions (contents f)) ->
      value tx = "0" /\ to tx = "0xf6A044c3b2a3373eF2909E2474f3229f23279B5F".
Proof.
  split; [reflexivity|].
  destruct (main_on_spec w toks) as (st & bs & pend & Hrun & R).
  exists st. split; [exact Hrun|].
  intros f tx Hf Htx. rewrite (rr_files _ _ _ _ _ R) in Hf.
  apply in_map_iff in Hf as (b & <- & _).
  simpl in Htx. apply in_map_iff in Htx as (it & <- & _).
  split; reflexivity.
Qed.

(** C6: when the tool exits with a non-zero status for a token, the
    iteration prints the error and the skip message, leaves the files
    written so far, the open batch and the file count as they were, and the
    loop goes on with the remaining tokens, keeping the files already written
    as a prefix of the final ones; the token is named by no file of the run. *)
Theorem failure_reported_token_skipped_run_continues
    (w : Z -> list string -> CompletedProcess) (toks : list Z) (i t : Z)
    (Hin : In (i, t) (enumerate toks))
    (Hfail : forall j, In (j, t) (enumerate toks) ->
                       returncode (w j (cast_command t)) <> 0) :
  (forall n st rest,
      exists st',
        loop_body w n st (i, t) = Ok st' /\
        out st' = out st ++ [MsgProcessing t (i + 1) n;
                             MsgErrorGenerating t (w i (cast_command t));
                             MsgFailedSkipping t] /\
        files st' = files st /\
        file_count st' = file_count st /\
        batch_token_ids st' = batch_token_ids st /\
        batch_calldatas st' = batch_calldatas st /\
        main_loop w n st ((i, t) :: rest) = main_loop w n st' rest /\
        forall st'', main_loop w n st' rest = Ok st'' ->
                     exists more, files st'' = files st ++ more) /\
  exists st,
    main_on w toks = Ok st /\
    forall f, In f (files st) -> ~ names_token f t.
Proof.
  split.
  - intros n st rest.
    pose proof (loop_body_failure w n st i t (Hfail i Hin)) as Hbody.
    eexists. split; [exact Hbody|].
    split; [simpl; now rewrite <- !app_assoc|].
    do 4 (split; [reflexivity|]).
    split.
    + rewrite main_loop_cons, Hbody. reflexivity.
    + intros st'' Hrun.
      now apply main_loop_files_grow in Hrun.
  - apply unsuccessful_token_in_no_file.
    intros j Hj. apply succeeds_false_failure. now apply Hfail.
Qed.

Lemma failure_reported_token_skipped_run_continues_witness :
  (forall n st rest,
      exists st',
        loop_body (fails_at 1) n st (1, 2) = Ok st' /\
        out st' = out st ++ [MsgProcessing 2 (1 + 1) n;
                             MsgErrorGenerating 2 (fails_at 1 1 (cast_command 2));
                             MsgFailedSkipping 2] /\
        files st' = files st /\
        file_count st' = file_count st /\
        batch_token_ids st' = batch_token_ids st /\
        batch_calldatas st' = batch_calldatas st /\
        main_loop (fails_at 1) n st ((1, 2) :: rest)
        = main_loop (fails_at 1) n st' rest /\
        forall st'', main_loop (fails_at 1) n st' rest = Ok st'' ->
                     exists more, files st'' = files st ++ more) /\
  exists st,
    main_on (fails_at 1) [1; 2] = Ok st /\
    forall f, In f (files st) -> ~ names_token f 2.
Proof.
  apply (failure_reported_token_skipped_run_continues (fails_at 1) [1; 2] 1 2).
  - simpl. tauto.
  - intros j [H|[H|[]]]; inversion H; subst. vm_compute. discriminate.
Defined.

(** C7: for the list [5959; 5961; 6335; 6524; 4593; 5603], when the tool
    exits with status 0 and prints call data (something else than white
    space) for every token, the run writes exactly two files, the first with
    5 transactions and the second with 1. *)
Theorem six_tokens_two_files
    (w : Z -> list string -> CompletedProcess)
    (Hall : forall i t,
        In (i, t) (enumerate [5959; 5961; 6335; 6524; 4593; 5603]) ->
        returncode (w i (cast_command t)) = 0 /\
        strip (stdout (w i (cast_command t))) <> "") :
  exists st f1 f2,
    main_on w [5959; 5961; 6335; 6524; 4593; 5603] = Ok st /\
    files st = [f1; f2] /\
    file_count st = 2 /\
    entries f1 = 5 /\
    entries f2 = 1 /\
    filename f1 = "migrate_tokens_5959_5961_6335_6524_4593.json" /\
    filename f2 = "migrate_tokens_5603.json".
Proof.
  assert (Hok : forall i t,
             In (i, t) (enumerate [5959; 5961; 6335; 6524; 4593; 5603]) ->
             succeeds w (i, t) = true).
  { intros i t Hin. apply succeeds_true. exact (Hall i t Hin). }
  unfold main_on.
  change (enumerate [5959; 5961; 6335; 6524; 4593; 5603])
    with [(0, 5959); (1, 5961); (2, 6335); (3, 6524); (4, 4593); (5, 5603)]
    in *.
  do 3 eexists. split; [|shelve].
  do 4 (rewrite main_loop_cons, loop_body_keep;
        [ rewrite bind_Ok; cbv beta
        | apply Hok; simpl; tauto
        | vm_compute; discriminate
        | vm_compute; discriminate ]).
  rewrite main_loop_cons, loop_body_flush;
    [ rewrite bind_Ok; cbv beta
    | apply Hok; simpl; tauto
    | left; reflexivity
    | reflexivity ].
  rewrite main_loop_cons, loop_body_flush;
    [ rewrite bind_Ok; cbv beta
    | apply Hok; simpl; tauto
    | right; reflexivity
    | reflexivity ].
  reflexivity.
  Unshelve. all: simpl; repeat split; reflexivity.
Qed.

Lemma six_tokens_two_files_witness :
  exists st f1 f2,
    main_on all_succeed [5959; 5961; 6335; 6524; 4593; 5603] = Ok st /\
    files st = [f1; f2] /\
    file_count st = 2 /\
    entries f1 = 5 /\
    entries f2 = 1 /\
    filename f1 = "migrate_tokens_5959_5961_6335_6524_4593.json" /\
    filename f2 = "migrate_tokens_5603.json".
Proof.
  apply six_tokens_two_files.
  intros i t _. split; [reflexivity | vm_compute; discriminate].
Defined.

(** C8: the top-level field ["chainId"] of every file written by a run is
    the string ["43114"]. *)
Theorem files_chain_id
    (w : Z -> list string -> CompletedProcess) (toks : list Z) :
  exists st,
    main_on w toks = Ok st /\
    forall f, In f (files st) -> chainId (contents f) = "43114".
Proof.
  destruct (main_on_spec w toks) as (st & bs & pend & Hrun & R).
  exists st. split; [exact Hrun|].
  intros f Hf. rewrite (rr_files _ _ _ _ _ R) in Hf.
  now apply in_map_iff in Hf as (b & <- & _).
Qed.

(** C9: when the tool exits with status 0 and its standard output is empty
    or white space only, the token is handled as after a failure: the
    iteration prints the skip message, leaves the files, the open batch and
    the file count as they were (the same as the iteration of a failing
    tool does), the loop goes on, and the token is named by no file of the
    run. *)
Theorem blank_output_token_skipped
    (w : Z -> list string -> CompletedProcess) (toks : list Z) (i t : Z)
    (Hin : In (i, t) (enumerate toks))
    (Hblank : forall j, In (j, t) (enumerate toks) ->
                        returncode (w j (cast_command t)) = 0 /\
                        all_space (stdout (w j (cast_command t))) = true) :
  (forall n st rest,
      exists st',
        loop_body w n st (i, t) = Ok st' /\
        out st' = out st ++ [MsgProcessing t (i + 1) n; MsgFailedSkipping t] /\
        files st' = files st /\
        file_count st' = file_count st /\
        batch_token_ids st' = batch_token_ids st /\
        batch_calldatas st' = batch_calldatas st /\
        main_loop w n st ((i, t) :: rest) = main_loop w n st' rest /\
        forall w', returncode (w' i (cast_command t)) <> 0 ->
          exists st_failed,
            loop_body w' n st (i, t) = Ok st_failed /\
            files st' = files st_failed /\
            file_count st' = file_count st_failed /\
            batch_token_ids st' = batch_token_ids st_failed /\
            batch_calldatas st' = batch_calldatas st_failed) /\
  exists st,
    main_on w toks = Ok st /\
    forall f, In f (files st) -> ~ names_token f t.
Proof.
  split.
  - intros n st rest. destruct (Hblank i Hin) as [Hrc Hsp].
    pose proof (loop_body_blank w n st i t Hrc Hsp) as Hbody.
    eexists. split; [exact Hbody|].
    split; [simpl; now rewrite <- !app_assoc|].
    do 4 (split; [reflexivity|]).
    split.
    + rewrite main_loop_cons, Hbody. reflexivity.
    + intros w' Hrc'. rewrite (loop_body_failure w' n st i t Hrc').
      eexists. split; [reflexivity|]. simpl. repeat split.
  - apply unsuccessful_token_in_no_file.
    intros j Hj. apply succeeds_false_blank. now apply Hblank.
Qed.

Lemma blank_output_token_skipped_witness :
  (forall n st rest,
      exists st',
        loop_body (blank_at 1) n st (1, 2) = Ok st' /\
        out st' = out st ++ [MsgProcessing 2 (1 + 1) n; MsgFailedSkipping 2] /\
        files st' = files st /\
        file_count st' = file_count st /\
        batch_token_ids st' = batch_token_ids st /\
        batch_calldatas st' = batch_calldatas st /\
        main_loop (blank_at 1) n st ((1, 2) :: rest)
        = main_loop (blank_at 1) n st' rest /\
        forall w', returncode (w' 1 (cast_command 2)) <> 0 ->
          exists st_failed,
            loop_body w' n st (1, 2) = Ok st_failed /\
            files st' = files st_failed /\
            file_count st' = file_count st_failed /\
            batch_token_ids st' = batch_token_ids st_failed /\
            batch_calldatas st' = batch_calldatas st_failed) /\
  exists st,
    main_on (blank_at 1) [1; 2] = Ok st /\
    forall f, In f (files st) -> ~ names_token f 2.
Proof.
  apply (blank_output_token_skipped (blank_at 1) [1; 2] 1 2).
  - simpl. tauto.
  - intros j [H|[H|[]]]; inversion H; subst. vm_compute. split; reflexivity.
Defined.


(** ** Further properties of the script *)

(** *** [create_transaction_json] on any arguments *)

Lemma getitem_end {A : Type} (l : list A) :
  getitem l (len l) = Raise IndexError.
Proof.
  unfold getitem.
  pose proof (len_nonneg l) as Hl.
  destruct (len l <? 0) eqn:Hneg; [apply Z.ltb_lt in Hneg; lia|].
  rewrite Hneg. unfold len. rewrite Nat2Z.id.
  now rewrite (proj2 (nth_error_None l (List.length l)) (Nat.le_refl _)).
Qed.

Lemma create_transactions_any (ids : list Z) :
  forall (pre ds : list string) (acc : list Transaction),
    create_transactions (enumerate_from (len pre) ids) (pre ++ ds) acc
    = if (List.length ids <=? List.length ds)%nat
      then Ok (acc ++ map tx_of_data (firstn (List.length ids) ds))
      else Raise IndexError.
Proof.
  induction ids as [|t ids IH]; intros pre ds acc.
  - simpl. now rewrite app_nil_r.
  - destruct ds as [|d ds].
    + simpl. rewrite app_nil_r, getitem_end. reflexivity.
    + simpl create_transactions. rewrite getitem_middle. rewrite bind_Ok.
      replace (len pre + 1) with (len (pre ++ [d]))
        by (rewrite len_app; reflexivity).
      replace (pre ++ d :: ds) with ((pre ++ [d]) ++ ds)
        by (now rewrite <- app_assoc).
      rewrite IH. simpl List.length.
      change (S (List.length ids) <=? S (List.length ds))%nat
        with (List.length ids <=? List.length ds)%nat.
      destruct (List.length ids <=? List.length ds)%nat; [|reflexivity].
      simpl. now rewrite <- app_assoc.
Qed.

(** X1: [create_transaction_json] raises [IndexError] exactly when there
    are fewer call data than token IDs; otherwise it returns one entry per
    token ID, built from the call data of the same positions, in order, and
    ignores the call data beyond.  The token IDs are used for their number
    only. *)
Theorem create_transaction_json_any (ids : list Z) (cds : list string) :
  create_transaction_json ids cds
  = if (List.length ids <=? List.length cds)%nat
    then Ok {| chainId := "43114";
               transactions :=
                 map (fun d => {| to := pharaoh_loan; value := "0"; data := d |})
                   (firstn (List.length ids) cds) |}
    else Raise IndexError.
Proof.
  unfold create_transaction_json, enumerate.
  change 0 with (len (@nil string)).
  change cds with ([] ++ cds) at 1.
  rewrite (create_transactions_any ids [] cds []).
  destruct (List.length ids <=? List.length cds)%nat; reflexivity.
Qed.

(** *** What a run prints *)

Lemma created_of_app (l1 l2 : list Msg) :
  created_of (l1 ++ l2) = created_of l1 ++ created_of l2.
Proof. apply flat_map_app. Qed.

Lemma processing_of_app (l1 l2 : list Msg) :
  processing_of (l1 ++ l2) = processing_of l1 ++ processing_of l2.
Proof. apply flat_map_app. Qed.

Lemma skipped_of_app (l1 l2 : list Msg) :
  skipped_of (l1 ++ l2) = skipped_of l1 ++ skipped_of l2.
Proof. apply flat_map_app. Qed.

Lemma errors_of_app (l1 l2 : list Msg) :
  errors_of (l1 ++ l2) = errors_of l1 ++ errors_of l2.
Proof. apply flat_map_app. Qed.

Lemma loop_body_log (w : Z -> list string -> CompletedProcess)
    (n : Z) (st st' : State) (i t : Z) :
  loop_body w n st (i, t) = Ok st' ->
  iteration_log w n st [(i, t)] st'.
Proof.
  unfold loop_body, generate_calldata.
  assert (Hs : succeeds w (i, t)
               = if returncode (w i (cast_command t)) =? 0
                 then match strip (stdout (w i (cast_command t))) with
                      | "" => false
                      | _ => true
                      end
                 else false).
  { unfold succeeds, calldata_of, generate_calldata. simpl.
    destruct (returncode _ =? 0); [|reflexivity].
    simpl. now destruct (strip _). }
  destruct (returncode (w i (cast_command t)) =? 0) eqn:Hrc.
  - destruct (strip (stdout (w i (cast_command t)))) as [|c s] eqn:Hstrip.
    + intros [= <-].
      split; simpl; unfold completed; simpl; rewrite ?Hs, ?Hrc; simpl.
      * exists []. rewrite !created_of_app. simpl. rewrite !app_nil_r.
      repeat split. unfold len. simpl. lia.
      * rewrite <- app_assoc. now eexists.
      * rewrite !processing_of_app. simpl. now rewrite <- app_assoc.
      * rewrite !skipped_of_app. simpl. now rewrite <- app_assoc.
      * rewrite !errors_of_app. simpl. now rewrite !app_nil_r.
    + simpl fold_left. cbv beta iota.
      destruct (_ || _).
      * rewrite create_transaction_json_any.
        destruct (_ <=? _)%nat eqn:Hle; simpl; [|discriminate].
        apply Nat.leb_le in Hle.
        intros [= <-].
        split; simpl; unfold completed; simpl; rewrite ?Hs, ?Hrc; simpl.
        -- eexists. split; [reflexivity|]. split; [unfold len; simpl; lia|].
           rewrite !created_of_app. simpl. rewrite !app_nil_r.
           unfold entries, len at 2. simpl.
           rewrite List.length_map, List.length_firstn, Nat.min_l by exact Hle.
           reflexivity.
        -- rewrite <- app_assoc. now eexists.
        -- rewrite !processing_of_app. simpl. now rewrite <- app_assoc.
        -- rewrite !skipped_of_app. simpl. now rewrite !app_nil_r.
        -- rewrite !errors_of_app. simpl. now rewrite !app_nil_r.
      * intros [= <-].
        split; simpl; unfold completed; simpl; rewrite ?Hs, ?Hrc; simpl.
        -- exists []. rewrite !created_of_app. simpl. rewrite !app_nil_r.
      repeat split. unfold len. simpl. lia.
        -- now eexists.
        -- rewrite !processing_of_app. reflexivity.
        -- rewrite !skipped_of_app. simpl. now rewrite !app_nil_r.
        -- rewrite !errors_of_app. simpl. now rewrite !app_nil_r.
  - intros [= <-].
    split; simpl; unfold completed; simpl; rewrite ?Hs, ?Hrc; simpl.
    + exists []. rewrite !created_of_app. simpl. rewrite !app_nil_r.
      repeat split. unfold len. simpl. lia.
    + rewrite <- !app_assoc. now eexists.
    + rewrite !processing_of_app. simpl. now rewrite <- !app_assoc.
    + rewrite !skipped_of_app. simpl. now rewrite <- !app_assoc.
    + rewrite !errors_of_app. simpl. now rewrite <- !app_assoc.
Qed.

Lemma main_loop_log (w : Z -> list string -> CompletedProcess)
    (n : Z) (items : list (Z * Z)) :
  forall st st',
    main_loop w n st items = Ok st' ->
    iteration_log w n st items st'.
Proof.
  induction items as [|[i t] items IH]; intros st st' Hrun.
  - injection Hrun as <-. split; simpl; rewrite ?app_nil_r; auto.
    + exists []. rewrite !app_nil_r. repeat split. unfold len. simpl. lia.
    + exists []. now rewrite app_nil_r.
  - rewrite main_loop_cons in Hrun.
    destruct (loop_body w n st (i, t)) as [st1|e] eqn:Hbody;
      [rewrite bind_Ok in Hrun | discriminate].
    destruct (loop_body_log _ _ _ _ _ _ Hbody)
      as [(m1 & Hf1 & Hc1 & Hcr1) (l1 & Ho1) Hp1 Hs1 He1].
    destruct (IH _ _ Hrun)
      as [(m2 & Hf2 & Hc2 & Hcr2) (l2 & Ho2) Hp2 Hs2 He2].
    split.
    + exists (m1 ++ m2).
      rewrite Hf2, Hf1, Hc2, Hc1, Hcr2, Hcr1, map_app, len_app, <- !app_assoc.
      repeat split. lia.
    + exists (l1 ++ l2). now rewrite Ho2, Ho1, <- app_assoc.
    + rewrite Hp2, Hp1, <- app_assoc. reflexivity.
    + rewrite Hs2, Hs1, <- app_assoc. simpl filter.
      destruct (succeeds w (i, t)); reflexivity.
    + rewrite He2, He1, <- app_assoc. simpl filter.
      destruct (returncode (completed w (i, t)) =? 0); reflexivity.
Qed.

(** What a whole run prints. *)
Lemma run_log
    (w : Z -> list string -> CompletedProcess) (toks : list Z) :
  exists st,
    main_on w toks = Ok st /\
    (exists body,
        out st = [MsgGenerating (len toks); MsgGrouping] ++ body
                 ++ [MsgGenerated (len (files st)); MsgEachFile]) /\
    processing_of (out st)
    = map (fun it => (snd it, fst it + 1, len toks)) (enumerate toks) /\
    skipped_of (out st)
    = map snd (filter (fun it => negb (succeeds w it)) (enumerate toks)) /\
    errors_of (out st)
    = map snd
        (filter (fun it =>
                   negb (returncode (w (fst it) (cast_command (snd it))) =? 0))
           (enumerate toks)) /\
    created_of (out st)
    = map (fun f => (filename f, entries f)) (files st).
Proof.
  destruct (main_on_spec w toks) as (st & bs & pend & Hrun & R).
  exists st. split; [exact Hrun|].
  unfold main_on in Hrun.
  destruct (main_loop w (len toks) _ (enumerate toks)) as [st1|e] eqn:Hloop;
    [rewrite bind_Ok in Hrun | discriminate].
  injection Hrun as <-.
  destruct (main_loop_log _ _ _ _ _ Hloop)
    as [(more & Hf & Hc & Hcr) (lines & Ho) Hp Hs He].
  simpl in Hf, Hc, Hcr, Ho, Hp, Hs, He. unfold completed in He.
  simpl files. simpl out.
  rewrite !processing_of_app, !skipped_of_app, !errors_of_app, !created_of_app.
  simpl. rewrite !app_nil_r.
  split; [|repeat split; congruence].
  exists lines. rewrite Ho, <- !app_assoc. simpl.
  replace (file_count st1) with (len (files st1)); [reflexivity|].
  rewrite Hf, Hc. reflexivity.
Qed.

(** X2: the terminal tells what happened.  A run prints the two opening
    lines first and the two closing lines last; in between, one
    [Processing] line per token of the list, in order, with its position
    and the length of the list; one [Failed ..., skipping...] line per token
    that fails the test of [main], and one [Error generating ...] line per
    token whose process exited with a non-zero status, in order; and one
    [Created ...] line per file written, in order, with the file's name and
    its number of entries.  The closing line reports the number of files
    written. *)
Theorem terminal_accounts_for_the_run
    (w : Z -> list string -> CompletedProcess) (toks : list Z) :
  exists st,
    main_on w toks = Ok st /\
    (exists body,
        out st = [MsgGenerating (len toks); MsgGrouping] ++ body
                 ++ [MsgGenerated (len (files st)); MsgEachFile]) /\
    processing_of (out st)
    = map (fun it => (snd it, fst it + 1, len toks)) (enumerate toks) /\
    skipped_of (out st)
    = map snd (filter (fun it => negb (succeeds w it)) (enumerate toks)) /\
    errors_of (out st)
    = map snd
        (filter (fun it =>
                   negb (returncode (w (fst it) (cast_command (snd it))) =? 0))
           (enumerate toks)) /\
    created_of (out st)
    = map (fun f => (filename f, entries f)) (files st).
Proof. exact (run_log w toks). Qed.

(** *** Which tokens reach the files *)

Lemma map_snd_enumerate_from {A : Type} (l : list A) :
  forall k, map snd (enumerate_from k l) = l.
Proof. induction l as [|a l IH]; intros k; simpl; [|rewrite IH]; reflexivity. Qed.

Lemma filter_none {A : Type} (f : A -> bool) (l : list A) :
  (forall x, In x l -> f x = false) -> filter f l = [].
Proof.
  induction l as [|a l IH]; intros H; simpl; [reflexivity|].
  rewrite (H a (or_introl eq_refl)). apply IH. intros x Hx. apply H. now right.
Qed.

Lemma filter_all {A : Type} (f : A -> bool) (l : list A) :
  (forall x, In x l -> f x = true) -> filter f l = l.
Proof.
  induction l as [|a l IH]; intros H; simpl; [reflexivity|].
  rewrite (H a (or_introl eq_refl)). f_equal. apply IH.
  intros x Hx. apply H. now right.
Qed.

(** The files of a run seen as groups of token IDs. *)
Lemma run_groups (w : Z -> list string -> CompletedProcess) (toks : list Z) :
  exists st bs pend,
    main_on w toks = Ok st /\
    run_result w toks st bs pend /\
    map filename (files st) = map batch_filename (map (map snd) bs) /\
    map entries (files st) = map len (map (map snd) bs) /\
    List.concat (map (map snd) bs) ++ batch_token_ids st
    = map snd (ok_items w toks).
Proof.
  destruct (main_on_spec w toks) as (st & bs & pend & Hrun & R).
  exists st, bs, pend. split; [exact Hrun|]. split; [exact R|].
  destruct R. rewrite rr_files0, rr_pending0, rr_items0, !map_map.
  repeat split.
  - apply map_ext. intros b. rewrite entries_file_of_batch.
    unfold len. now rewrite List.length_map.
  - now rewrite map_app, concat_map.
Qed.

(** X3: the token IDs named by the files of a run, file after file,
    followed by the token IDs left in the open batch when the run ends, are
    the tokens that passed the test of [main], in the order of the list;
    every file has as many entries as its name has token IDs, and at most 4
    tokens are left in the open batch, which is never written. *)
Theorem written_then_open_are_the_successful
    (w : Z -> list string -> CompletedProcess) (toks : list Z) :
  exists st groups,
    main_on w toks = Ok st /\
    map filename (files st) = map batch_filename groups /\
    map entries (files st) = map len groups /\
    List.concat groups ++ batch_token_ids st = map snd (ok_items w toks) /\
    0 <= len (batch_token_ids st) <= 4.
Proof.
  destruct (run_groups w toks) as (st & bs & pend & Hrun & R & Hn & He & Hc).
  exists st, (map (map snd) bs). repeat split; auto.
  - apply len_nonneg.
  - rewrite (rr_pending _ _ _ _ _ R). unfold len. rewrite List.length_map.
    pose proof (rr_open _ _ _ _ _ R). lia.
Qed.

(** X4: when the last token of the list passes the test of [main], nothing
    is lost: the files name exactly the tokens that passed the test, in
    order, the open batch is empty at the end, and the number of files is
    the ceiling of (number of such tokens / 5). *)
Theorem last_token_successful_nothing_lost
    (w : Z -> list string -> CompletedProcess) (toks : list Z)
    (Hlast : last_succeeds w (enumerate toks) = true) :
  exists st groups,
    main_on w toks = Ok st /\
    map filename (files st) = map batch_filename groups /\
    List.concat groups = map snd (ok_items w toks) /\
    batch_token_ids st = [] /\
    batch_calldatas st = [] /\
    file_count st = ceil_div5 (len (ok_items w toks)).
Proof.
  destruct (run_groups w toks) as (st & bs & pend & Hrun & R & Hn & He & Hc).
  destruct (number_of_files_ceiling w toks) as (st' & Hrun' & Hceil).
  rewrite Hrun in Hrun'. injection Hrun' as <-.
  destruct (number_of_files w toks) as (st' & Hrun' & Hfc & _).
  rewrite Hrun in Hrun'. injection Hrun' as <-.
  exists st, (map (map snd) bs).
  assert (Hpend : pend = []) by exact (rr_closed _ _ _ _ _ R Hlast).
  assert (Hids : batch_token_ids st = []).
  { rewrite (rr_pending _ _ _ _ _ R), Hpend. reflexivity. }
  repeat split; auto.
  - rewrite <- Hc, Hids. now rewrite app_nil_r.
  - unfold main_on in Hrun.
    destruct (main_loop_spec w (len toks) toks 0
                {| file_count := 0; batch_token_ids := []; batch_calldatas := [];
                   files := [];
                   out := [MsgGenerating (len toks); MsgGrouping] |} [])
      as (st1 & bs1 & pend1 & Hloop & R1);
      [lia | split; reflexivity | simpl; lia |].
    fold (enumerate toks) in Hloop, R1.
    rewrite Hloop, bind_Ok in Hrun. injection Hrun as <-. simpl.
    destruct R1 as [_ _ [_ Hcds] _ _ _ _ Hcl _].
    rewrite Hcds, (Hcl Hlast). reflexivity.
  - rewrite Hfc. apply Hceil. now left.
Qed.

Lemma last_token_successful_nothing_lost_witness :
  exists st groups,
    main_on all_succeed [1; 2; 3; 4; 5; 6; 7] = Ok st /\
    map filename (files st) = map batch_filename groups /\
    List.concat groups = map snd (ok_items all_succeed [1; 2; 3; 4; 5; 6; 7]) /\
    batch_token_ids st = [] /\
    batch_calldatas st = [] /\
    file_count st = ceil_div5 (len (ok_items all_succeed [1; 2; 3; 4; 5; 6; 7])).
Proof.
  apply last_token_successful_nothing_lost. vm_compute. reflexivity.
Defined.

(** X5: the number of files of a run.  The counter [file_count] is the
    number of files written; it lies between the floor and the ceiling of
    (number of tokens that passed the test / 5), and so never exceeds the
    ceiling of (length of the list / 5); it reaches the ceiling exactly when
    the last token of the list passed the test or the number of tokens that
    passed is a multiple of 5. *)
Theorem number_of_files_bounds
    (w : Z -> list string -> CompletedProcess) (toks : list Z) :
  exists st,
    main_on w toks = Ok st /\
    file_count st = len (files st) /\
    len (ok_items w toks) / 5 <= len (files st)
                              <= ceil_div5 (len (ok_items w toks)) /\
    len (files st) <= ceil_div5 (len toks) /\
    (len (files st) = ceil_div5 (len (ok_items w toks)) <->
     last_succeeds w (enumerate toks) = true \/
     len (ok_items w toks) mod 5 = 0).
Proof.
  destruct (number_of_files w toks) as (st & Hrun & Hfc & Hn).
  destruct (number_of_files_ceiling w toks) as (st' & Hrun' & Hceil).
  rewrite Hrun in Hrun'. injection Hrun' as <-.
  exists st. split; [exact Hrun|]. split; [exact Hfc|].
  assert (Hok : 0 <= len (ok_items w toks) <= len toks).
  { split; [apply len_nonneg|]. unfold ok_items, len.
    apply Nat2Z.inj_le.
    rewrite <- (map_snd_enumerate_from toks 0) at 2.
    rewrite List.length_map. apply filter_length_le. }
  assert (Hbounds : len (ok_items w toks) / 5 <= len (files st)
                                              <= ceil_div5 (len (ok_items w toks))).
  { rewrite Hn. unfold ceil_div5.
    destruct (last_succeeds w (enumerate toks)); simpl andb;
      destruct (len (ok_items w toks) mod 5 =? 0) eqn:Hmod; simpl negb;
      cbv iota;
      [apply Z.eqb_eq in Hmod | apply Z.eqb_neq in Hmod
       | apply Z.eqb_eq in Hmod | apply Z.eqb_neq in Hmod];
      Z.to_euclidean_division_equations; lia. }
  split; [exact Hbounds|]. split; [|exact Hceil].
  unfold ceil_div5 in *. Z.to_euclidean_division_equations. lia.
Qed.

(** X6: when no token of the list passes the test of [main] (in
    particular for the empty list), the run ends normally, writes no file,
    reports 0 files and prints a skip line for every token. *)
Theorem no_successful_token_no_file
    (w : Z -> list string -> CompletedProcess) (toks : list Z)
    (Hnone : forall i t, In (i, t) (enumerate toks) -> succeeds w (i, t) = false) :
  exists st,
    main_on w toks = Ok st /\
    files st = [] /\
    file_count st = 0 /\
    batch_token_ids st = [] /\
    skipped_of (out st) = toks /\
    created_of (out st) = [].
Proof.
  destruct (run_groups w toks) as (st & bs & pend & Hrun & R & Hn & He & Hc).
  destruct (run_log w toks) as (st' & Hrun' & _ & _ & Hsk & _ & Hcr).
  rewrite Hrun in Hrun'. injection Hrun' as <-.
  exists st. split; [exact Hrun|].
  assert (Hok : ok_items w toks = []).
  { unfold ok_items.
    apply filter_none. intros [i t] Hin. now apply Hnone. }
  pose proof (rr_items _ _ _ _ _ R) as Hitems. rewrite Hok in Hitems.
  symmetry in Hitems. apply app_eq_nil in Hitems as [Hbs Hpend].
  assert (Hnil : bs = []).
  { destruct bs as [|b bs]; [reflexivity|]. exfalso.
    pose proof (rr_sizes _ _ _ _ _ R) as Hs. inversion Hs as [|? ? Hb _]; subst.
    simpl in Hbs. apply app_eq_nil in Hbs as [Hb0 _]. subst b. simpl in Hb. lia. }
  subst bs pend.
  assert (Hfiles : files st = []) by (rewrite (rr_files _ _ _ _ _ R); reflexivity).
  repeat split.
  - exact Hfiles.
  - rewrite (rr_count _ _ _ _ _ R). reflexivity.
  - rewrite (rr_pending _ _ _ _ _ R). reflexivity.
  - rewrite Hsk.
    rewrite filter_all; [apply map_snd_enumerate_from|].
    intros [i t] Hin. now rewrite (Hnone i t Hin).
  - rewrite Hcr, Hfiles. reflexivity.
Qed.

Lemma no_successful_token_no_file_witness :
  exists st,
    main_on (fun _ _ => failed_process) [1; 2; 3] = Ok st /\
    files st = [] /\
    file_count st = 0 /\
    batch_token_ids st = [] /\
    skipped_of (out st) = [1; 2; 3] /\
    created_of (out st) = [].
Proof.
  apply (no_successful_token_no_file (fun _ _ => failed_process) [1; 2; 3]).
  intros i t _. reflexivity.
Defined.

(** X7: every transaction entry written by a run carries call data that
    is not empty and whose first and last characters are not white space. *)
Theorem written_data_not_blank
    (w : Z -> list string -> CompletedProcess) (toks : list Z) :
  exists st,
    main_on w toks = Ok st /\
    forall f tx,
      In f (files st) -> In tx (transactions (contents f)) ->
      data tx <> "" /\
      starts_with_space (data tx) = false /\
      ends_with_space (data tx) = false /\
      lstrip (data tx) = data tx /\
      rstrip (data tx) = data tx.
Proof.
  destruct (main_on_spec w toks) as (st & bs & pend & Hrun & R).
  exists st. split; [exact Hrun|].
  intros f tx Hf Htx. rewrite (rr_files _ _ _ _ _ R) in Hf.
  apply in_map_iff in Hf as (b & <- & Hb).
  simpl in Htx. apply in_map_iff in Htx as (it & <- & Hit). simpl.
  assert (Hok : In it (ok_items w toks)).
  { rewrite (rr_items _ _ _ _ _ R). apply in_or_app. left.
    apply in_concat. now exists b. }
  apply filter_In in Hok as [_ Hok].
  apply succeeds_true in Hok as [_ Hne].
  split; [exact Hne|]. unfold stripped.
  split; [apply strip_ends|]. split; [apply strip_ends|].
  split; [apply lstrip_strip | apply rstrip_idempotent].
Qed.

(** *** File names *)

(** X8: the name of a batch file determines the token IDs of the batch,
    in order: two batches have the same file name exactly when they hold the
    same token IDs. *)
Theorem file_name_determines_tokens (ids1 ids2 : list Z) :
  batch_filename ids1 = batch_filename ids2 <-> ids1 = ids2.
Proof.
  split; [apply batch_filename_inj | now intros ->].
Qed.

Lemma distinctb_NoDup (l : list Z) : distinctb l = true -> NoDup l.
Proof.
  induction l as [|x l IH]; simpl; intros H; [constructor|].
  apply andb_true_iff in H as [Hx Hl].
  constructor; [|now apply IH].
  intros Hin. apply negb_true_iff in Hx.
  assert (existsb (Z.eqb x) l = true); [|congruence].
  apply existsb_exists. exists x. split; [exact Hin | apply Z.eqb_refl].
Qed.

Lemma NoDup_map_snd_filter {A B : Type} (f : A * B -> bool) (l : list (A * B)) :
  NoDup (map snd l) -> NoDup (map snd (filter f l)).
Proof.
  induction l as [|a l IH]; simpl; intros H; [constructor|].
  inversion H as [|? ? Hnotin Hnd]; subst.
  destruct (f a); simpl; [|now apply IH].
  constructor; [|now apply IH].
  intros Hin. apply Hnotin.
  apply in_map_iff in Hin as (x & Hx & Hxin).
  apply filter_In in Hxin as [Hxin _].
  apply in_map_iff. now exists x.
Qed.

Lemma NoDup_groups {A : Type} (ls : list (list A)) :
  NoDup (List.concat ls) ->
  Forall (fun b => (1 <= List.length b)%nat) ls ->
  NoDup ls.
Proof.
  induction ls as [|b ls IH]; simpl; intros Hnd Hne; [constructor|].
  inversion Hne as [|? ? Hb Hrest]; subst.
  constructor.
  - intros Hin. destruct b as [|a b]; [simpl in Hb; lia|].
    simpl in Hnd. inversion Hnd as [|? ? Hnotin _]; subst.
    apply Hnotin. apply in_or_app. right.
    apply in_concat. exists (a :: b). split; [exact Hin | now left].
  - apply IH; [|exact Hrest]. now apply NoDup_app_remove_l in Hnd.
Qed.

Lemma NoDup_map_injective {A B : Type} (f : A -> B) (l : list A) :
  (forall x y, f x = f y -> x = y) -> NoDup l -> NoDup (map f l).
Proof.
  intros Hinj. induction 1 as [|a l Hnotin _ IH]; simpl; constructor; [|exact IH].
  intros Hin. apply in_map_iff in Hin as (x & Hx & Hxin).
  apply Hinj in Hx. now subst x.
Qed.

(** Without a repeated token ID no file name is used twice. *)
Lemma file_names_distinct
    (w : Z -> list string -> CompletedProcess) (toks : list Z)
    (Hdistinct : NoDup toks) :
  exists st,
    main_on w toks = Ok st /\
    NoDup (map filename (files st)).
Proof.
  destruct (run_groups w toks) as (st & bs & pend & Hrun & R & Hn & He & Hc).
  exists st. split; [exact Hrun|]. rewrite Hn.
  apply NoDup_map_injective; [apply batch_filename_inj|].
  apply NoDup_groups.
  - assert (Hok : NoDup (map snd (ok_items w toks))).
    { unfold ok_items. apply NoDup_map_snd_filter.
      unfold enumerate. now rewrite map_snd_enumerate_from. }
    rewrite <- Hc in Hok. now apply NoDup_app_remove_r in Hok.
  - apply Forall_map.
    eapply Forall_impl; [|exact (rr_sizes _ _ _ _ _ R)].
    simpl. intros b Hb. rewrite List.length_map. lia.
Qed.

(** X9: when no token ID occurs twice in the list, the files of a run
    have pairwise different names, so no file of the run overwrites
    another. *)
Theorem distinct_tokens_distinct_file_names
    (w : Z -> list string -> CompletedProcess) (toks : list Z)
    (Hdistinct : NoDup toks) :
  exists st,
    main_on w toks = Ok st /\
    NoDup (map filename (files st)).
Proof. exact (file_names_distinct w toks Hdistinct). Qed.

Lemma distinct_tokens_distinct_file_names_witness :
  exists st,
    main_on all_succeed token_ids = Ok st /\
    NoDup (map filename (files st)).
Proof.
  apply distinct_tokens_distinct_file_names.
  apply distinctb_NoDup. vm_compute. reflexivity.
Defined.

(** *** The open batch between iterations *)

Lemma loop_body_keeps_open_batch (w : Z -> list string -> CompletedProcess)
    (n : Z) (st : State) (i t : Z) :
  List.length (batch_calldatas st) = List.length (batch_token_ids st) ->
  (List.length (batch_token_ids st) < 5)%nat ->
  exists st',
    loop_body w n st (i, t) = Ok st' /\
    List.length (batch_calldatas st') = List.length (batch_token_ids st') /\
    (List.length (batch_token_ids st') < 5)%nat /\
    exists more,
      files st' = files st ++ more /\
      Forall (fun f => 1 <= entries f <= 5) more.
Proof.
  intros Hlen Hopen.
  destruct (succeeds w (i, t)) eqn:Hok.
  - destruct (Z.eq_dec (len (batch_token_ids st ++ [t])) 5) as [H5|H5];
      [|destruct (Z.eq_dec i (n - 1)) as [Hend|Hend]].
    + rewrite (loop_body_flush w n st i t Hok (or_introl H5) Hlen).
      eexists. split; [reflexivity|]. simpl.
      split; [reflexivity|]. split; [lia|].
      eexists. split; [reflexivity|]. constructor; [|constructor].
      unfold entries, len. simpl.
      rewrite List.length_map, List.length_app. simpl. lia.
    + rewrite (loop_body_flush w n st i t Hok (or_intror Hend) Hlen).
      eexists. split; [reflexivity|]. simpl.
      split; [reflexivity|]. split; [lia|].
      eexists. split; [reflexivity|]. constructor; [|constructor].
      unfold entries, len. simpl.
      rewrite List.length_map, List.length_app. simpl. lia.
    + rewrite (loop_body_keep w n st i t Hok H5 Hend).
      eexists. split; [reflexivity|]. simpl.
      unfold len in H5. rewrite List.length_app in H5. simpl in H5.
      rewrite !List.length_app. simpl.
      split; [lia|]. split; [lia|].
      exists []. now rewrite app_nil_r.
  - rewrite (loop_body_skip w n st i t Hok).
    eexists. split; [reflexivity|].
    destruct (fold_print_frame (snd (generate_calldata w i t))
                (print st (MsgProcessing t (i + 1) n)))
      as (_ & H2 & H3 & H4 & _).
    simpl in *. rewrite H2, H3, H4.
    split; [exact Hlen|]. split; [exact Hopen|].
    exists []. now rewrite app_nil_r.
Qed.

Lemma main_loop_keeps_open_batch (w : Z -> list string -> CompletedProcess)
    (n : Z) (items : list (Z * Z)) :
  forall st,
    List.length (batch_calldatas st) = List.length (batch_token_ids st) ->
    (List.length (batch_token_ids st) < 5)%nat ->
    exists st',
      main_loop w n st items = Ok st' /\
      List.length (batch_calldatas st') = List.length (batch_token_ids st') /\
      (List.length (batch_token_ids st') < 5)%nat /\
      exists more,
        files st' = files st ++ more /\
        Forall (fun f => 1 <= entries f <= 5) more.
Proof.
  induction items as [|[i t] items IH]; intros st Hlen Hopen.
  - exists st. split; [reflexivity|]. split; [exact Hlen|].
    split; [exact Hopen|]. exists []. now rewrite app_nil_r.
  - destruct (loop_body_keeps_open_batch w n st i t Hlen Hopen)
      as (st1 & Hbody & Hlen1 & Hopen1 & m1 & Hf1 & Hm1).
    destruct (IH st1 Hlen1 Hopen1) as (st' & Hrun & Hlen' & Hopen' & m2 & Hf2 & Hm2).
    exists st'. rewrite main_loop_cons, Hbody, bind_Ok.
    split; [exact Hrun|]. split; [exact Hlen'|]. split; [exact Hopen'|].
    exists (m1 ++ m2). rewrite Hf2, Hf1, <- app_assoc.
    split; [reflexivity|]. now apply Forall_app.
Qed.

(** X10: the loop keeps its open batch in order.  Started in a state
    whose open batch has fewer than five token IDs and as many call data as
    token IDs, the loop over any items, for any total, ends normally
    (no [IndexError]) in a state with the same two properties, and every
    file it has added holds between 1 and 5 entries. *)
Theorem loop_keeps_open_batch_below_five
    (w : Z -> list string -> CompletedProcess)
    (n : Z) (items : list (Z * Z)) (st : State)
    (Hlen : len (batch_calldatas st) = len (batch_token_ids st))
    (Hopen : len (batch_token_ids st) < 5) :
  exists st' more,
    main_loop w n st items = Ok st' /\
    len (batch_calldatas st') = len (batch_token_ids st') /\
    len (batch_token_ids st') < 5 /\
    files st' = files st ++ more /\
    forall f, In f more -> 1 <= entries f <= 5.
Proof.
  unfold len in Hlen, Hopen.
  destruct (main_loop_keeps_open_batch w n items st)
    as (st' & Hrun & Hlen' & Hopen' & more & Hf & Hm); [lia | lia |].
  exists st', more. unfold len. repeat split; try lia; auto.
  - now apply (proj1 (Forall_forall _ _) Hm).
  - now apply (proj1 (Forall_forall _ _) Hm).
Qed.

Lemma loop_keeps_open_batch_below_five_witness :
  exists st' more,
    main_loop all_succeed 9
      {| file_count := 0; batch_token_ids := [7; 8]; batch_calldatas := ["0x01"; "0x02"];
         files := []; out := [] |}
      [(2, 11); (3, 12); (4, 13); (5, 14)] = Ok st' /\
    len (batch_calldatas st') = len (batch_token_ids st') /\
    len (batch_token_ids st') < 5 /\
    files st' = [] ++ more /\
    forall f, In f more -> 1 <= entries f <= 5.
Proof.
  apply (loop_keeps_open_batch_below_five all_succeed 9
           [(2, 11); (3, 12); (4, 13); (5, 14)]
           {| file_count := 0; batch_token_ids := [7; 8];
              batch_calldatas := ["0x01"; "0x02"]; files := []; out := [] |}).
  - reflexivity.
  - reflexivity.
Defined.

(** *** Processing a list in two parts *)







(** *** The files depend on the call data kept, and on nothing else *)

Lemma same_output_fold_print (l1 l2 : list Msg) (st1 st2 : State) :
  same_output st1 st2 ->
  same_output (fold_left print l1 st1) (fold_left print l2 st2).
Proof.
  intros (H1 & H2 & H3 & H4).
  destruct (fold_print_frame l1 st1) as (A1 & A2 & A3 & A4 & _).
  destruct (fold_print_frame l2 st2) as (B1 & B2 & B3 & B4 & _).
  unfold same_output. rewrite A1, A2, A3, A4, B1, B2, B3, B4. auto.
Qed.

Lemma same_output_print (m1 m2 : Msg) (st1 st2 : State) :
  same_output st1 st2 -> same_output (print st1 m1) (print st2 m2).
Proof. intros H. exact H. Qed.

Lemma accepted_cases (w : Z -> list string -> CompletedProcess) (i t : Z) :
  match accepted w (i, t) with
  | Some calldata =>
      calldata <> "" /\
      generate_calldata w i t = (Some calldata, [])
  | None =>
      exists printed,
        generate_calldata w i t = (None, printed) \/
        generate_calldata w i t = (Some "", printed)
  end.
Proof.
  unfold accepted.
  destruct (succeeds w (i, t)) eqn:Hok.
  - split; [now apply succeeds_true in Hok|].
    now apply generate_calldata_succeeds.
  - unfold succeeds, calldata_of in Hok. simpl in Hok.
    destruct (generate_calldata w i t) as [[[|c s]|] printed];
      [ | discriminate | ]; exists printed; auto.
Qed.

Lemma loop_body_same_output (w1 w2 : Z -> list string -> CompletedProcess)
    (n : Z) (st1 st2 : State) (i t : Z) :
  same_output st1 st2 ->
  accepted w1 (i, t) = accepted w2 (i, t) ->
  match loop_body w1 n st1 (i, t), loop_body w2 n st2 (i, t) with
  | Ok a, Ok b => same_output a b
  | Raise e1, Raise e2 => e1 = e2
  | _, _ => False
  end.
Proof.
  intros Hsame Hacc.
  pose proof (accepted_cases w1 i t) as C1.
  pose proof (accepted_cases w2 i t) as C2.
  rewrite <- Hacc in C2.
  unfold loop_body.
  destruct (accepted w1 (i, t)) as [calldata|].
  - destruct C1 as [Hne G1]. destruct C2 as [_ G2]. rewrite G1, G2.
    destruct calldata as [|c s]; [congruence|].
    simpl fold_left. cbv beta iota.
    destruct Hsame as (H1 & H2 & H3 & H4).
    simpl batch_token_ids. simpl batch_calldatas. simpl files.
    simpl file_count. rewrite H1, H2, H3, H4.
    destruct (_ || _).
    + destruct (create_transaction_json _ _) as [j|[]]; simpl; [|reflexivity].
      repeat split.
    + repeat split.
  - destruct C1 as (p1 & [G1|G1]); destruct C2 as (p2 & [G2|G2]);
      rewrite G1, G2; cbv beta iota;
      apply same_output_print, same_output_fold_print, same_output_print;
      exact Hsame.
Qed.

Lemma main_loop_same_output (w1 w2 : Z -> list string -> CompletedProcess)
    (n : Z) (items : list (Z * Z)) :
  forall st1 st2,
    same_output st1 st2 ->
    (forall it, In it items -> accepted w1 it = accepted w2 it) ->
    match main_loop w1 n st1 items, main_loop w2 n st2 items with
    | Ok a, Ok b => same_output a b
    | Raise e1, Raise e2 => e1 = e2
    | _, _ => False
    end.
Proof.
  induction items as [|[i t] items IH]; intros st1 st2 Hsame Hacc.
  - exact Hsame.
  - rewrite !main_loop_cons.
    pose proof (loop_body_same_output w1 w2 n st1 st2 i t Hsame
                  (Hacc (i, t) (or_introl eq_refl))) as Hbody.
    destruct (loop_body w1 n st1 (i, t)) as [a|e1];
      destruct (loop_body w2 n st2 (i, t)) as [b|e2];
      try contradiction.
    + rewrite !bind_Ok. apply IH; [exact Hbody|].
      intros it Hin. apply Hacc. now right.
    + exact Hbody.
Qed.

(** X12: the files depend on the external tool only through the call
    data that [main] keeps.  Two tools that, for every token of the list,
    either both give the same non-empty stripped output with status 0 or
    both give nothing kept (a failure, or an empty or blank output), lead to
    the same files, the same file counter and the same open batch: the exit
    status and the output of a rejected invocation change nothing but the
    terminal. *)
Theorem files_depend_on_kept_calldata_only
    (w1 w2 : Z -> list string -> CompletedProcess) (toks : list Z)
    (Hsame : forall it, In it (enumerate toks) ->
                        accepted w1 it = accepted w2 it) :
  exists st1 st2,
    main_on w1 toks = Ok st1 /\
    main_on w2 toks = Ok st2 /\
    files st1 = files st2 /\
    file_count st1 = file_count st2 /\
    batch_token_ids st1 = batch_token_ids st2 /\
    batch_calldatas st1 = batch_calldatas st2.
Proof.
  destruct (main_on_spec w1 toks) as (st1 & _ & _ & Hrun1 & _).
  destruct (main_on_spec w2 toks) as (st2 & _ & _ & Hrun2 & _).
  exists st1, st2. split; [exact Hrun1|]. split; [exact Hrun2|].
  unfold main_on in Hrun1, Hrun2.
  set (st0 := {| file_count := 0 |}) in *.
  pose proof (main_loop_same_output w1 w2 (len toks) (enumerate toks) st0 st0
                (conj eq_refl (conj eq_refl (conj eq_refl eq_refl))) Hsame)
    as Hloop.
  destruct (main_loop w1 (len toks) st0 (enumerate toks)) as [a|e1];
    [|discriminate].
  destruct (main_loop w2 (len toks) st0 (enumerate toks)) as [b|e2];
    [|discriminate].
  rewrite bind_Ok in Hrun1, Hrun2.
  injection Hrun1 as <-. injection Hrun2 as <-.
  destruct Hloop as (H1 & H2 & H3 & H4). simpl. auto.
Qed.

Lemma files_depend_on_kept_calldata_only_witness :
  exists st1 st2,
    main_on (fails_at 1) [1; 2; 3] = Ok st1 /\
    main_on (blank_at 1) [1; 2; 3] = Ok st2 /\
    files st1 = files st2 /\
    file_count st1 = file_count st2 /\
    batch_token_ids st1 = batch_token_ids st2 /\
    batch_calldatas st1 = batch_calldatas st2.
Proof.
  apply files_depend_on_kept_calldata_only.
  intros it [H|[H|[H|[]]]]; subst it; vm_compute; reflexivity.
Defined.

(** *** [generate_calldata] and the command it runs *)

(** X13: [generate_calldata] returns [None] exactly when the process
    exits with a non-zero status, and prints one error line then and nothing
    otherwise.  When the status is 0 it returns the standard output without
    its white space at both ends: the output is the returned string between
    two runs of white space, the first and the last character of the
    returned string are not white space, and it is empty exactly when the
    output is all white space. *)
Theorem generate_calldata_outcome
    (w : Z -> list string -> CompletedProcess) (i t : Z) :
  (returncode (w i (cast_command t)) <> 0 ->
   generate_calldata w i t
   = (None, [MsgErrorGenerating t (w i (cast_command t))])) /\
  (returncode (w i (cast_command t)) = 0 ->
   exists s pre post,
     generate_calldata w i t = (Some s, []) /\
     stdout (w i (cast_command t)) = (pre ++ s ++ post)%string /\
     all_space pre = true /\ all_space post = true /\
     starts_with_space s = false /\ ends_with_space s = false /\
     lstrip s = s /\ rstrip s = s /\
     (s = "" <-> all_space (stdout (w i (cast_command t))) = true)).
Proof.
  unfold generate_calldata. split; intros Hrc.
  - apply Z.eqb_neq in Hrc. now rewrite Hrc.
  - apply Z.eqb_eq in Hrc. rewrite Hrc.
    destruct (strip_decompose (stdout (w i (cast_command t))))
      as (pre & post & Hs & Hpre & Hpost).
    exists (strip (stdout (w i (cast_command t)))), pre, post.
    split; [reflexivity|]. split; [exact Hs|].
    split; [exact Hpre|]. split; [exact Hpost|].
    split; [apply strip_ends|]. split; [apply strip_ends|].
    split; [apply lstrip_strip|]. split; [apply rstrip_idempotent|].
    apply strip_empty_iff.
Qed.

(** X14: every token gets a command line of its own: the commands of
    two tokens are the same exactly when the tokens are the same, the token
    being passed in decimal as the fourth of six arguments. *)
Theorem cast_command_per_token (t1 t2 : Z) :
  (cast_command t1 = cast_command t2 <-> t1 = t2) /\
  List.length (cast_command t1) = 6%nat /\
  nth_error (cast_command t1) 3 = Some (str t1).
Proof.
  split; [|split; reflexivity].
  split; [|now intros ->].
  unfold cast_command. intros H. injection H as H. now apply str_inj.
Qed.

(** X15: when an iteration writes.  From a state with as many call data
    as token IDs in the open batch, an iteration ends normally and changes
    the files exactly when its token passes the test of [main] and either
    makes the open batch reach five token IDs or sits at the last index of
    the list; a token that fails the test writes nothing, also at the last
    index. *)
Theorem iteration_writes_iff
    (w : Z -> list string -> CompletedProcess)
    (n : Z) (st : State) (i t : Z)
    (Hlen : len (batch_calldatas st) = len (batch_token_ids st)) :
  exists st',
    loop_body w n st (i, t) = Ok st' /\
    (files st' <> files st <->
     succeeds w (i, t) = true /\
     (len (batch_token_ids st ++ [t]) = 5 \/ i = n - 1)).
Proof.
  apply loop_body_writes_iff. unfold len in Hlen. lia.
Qed.

Lemma iteration_writes_iff_witness :
  exists st',
    loop_body (fails_at 1) 2
      {| file_count := 0; batch_token_ids := [1];
         batch_calldatas := ["0x8f2a91c4"]; files := []; out := [] |}
      (1, 2) = Ok st' /\
    (files st' <> files {| file_count := 0; batch_token_ids := [1];
                           batch_calldatas := ["0x8f2a91c4"]; files := [];
                           out := [] |} <->
     succeeds (fails_at 1) (1, 2) = true /\
     (len (batch_token_ids
             {| file_count := 0; batch_token_ids := [1];
                batch_calldatas := ["0x8f2a91c4"]; files := []; out := [] |}
           ++ [2]) = 5 \/ 1 = 2 - 1)).
Proof.
  apply (iteration_writes_iff (fails_at 1) 2
           {| file_count := 0; batch_token_ids := [1];
              batch_calldatas := ["0x8f2a91c4"]; files := []; out := [] |} 1 2).
  reflexivity.
Defined.
